(** * grym-synth: the two model-operation adapters

    A shallow embedding of [scripts/audioldm_operations.py] and
    [scripts/wav2vec2_operations.py].

    Both scripts are thin command-line shims around third-party libraries
    (argparse, json, torch, transformers, audioldm, soundfile, numpy).  The
    scripts' own control flow is embedded as Rocq functions in a small
    state-and-exception monad; every call into a third-party library is an
    oracle of an environment record, so that the theorems hold for whatever
    those libraries answer. *)

From Stdlib Require Import ZArith List String Ascii Bool Lia QArith.
Import ListNotations.
Set Warnings "-register-all".
Open Scope string_scope.
Open Scope Z_scope.

(** ** Floating-point numbers

    Machine floats are kept opaque.  What the scripts do with them are the
    fields of this interface. *)

Class FloatOps (F : Type) : Type := {
  (** [numpy.mean] of one row of a 2-D array (reduction along axis 1) *)
  np_mean : list F -> F;
  (** [x.astype(numpy.float32)] on one element *)
  astype_float32 : F -> F;
  (** Python's [a / b] on two ints, [b] non-zero *)
  int_truediv : Z -> Z -> F;
  (** Python's truth value of a float *)
  float_bool : F -> bool;
  (** the float a decimal literal of the source denotes *)
  float_literal : Q -> F
}.

(** ** Python values *)

Section Values.
Context {F : Type}.

(** A numpy array as [soundfile.read] returns it: one-dimensional for a
    mono file, [(frames, channels)] otherwise. *)
Inductive ndarray : Type :=
| Arr1 (samples : list F)
| Arr2 (channels : nat) (frames : list (list F)).

Definition shape (a : ndarray) : list nat :=
  match a with
  | Arr1 xs => [List.length xs]
  | Arr2 c rows => [List.length rows; c]
  end.

(** [len(a)] *)
Definition len (a : ndarray) : nat :=
  match a with
  | Arr1 xs => List.length xs
  | Arr2 _ rows => List.length rows
  end.

(** The values that travel through [params] and the result dictionaries.
    A dict is an association list in insertion order.  [VNpyB64 a] is the
    str [base64.b64encode(buf.getvalue()).decode('utf-8')] where [buf]
    holds [numpy.save(buf, a)]. *)
Inductive pyval : Type :=
| VNone
| VBool (b : bool)
| VInt (z : Z)
| VFloat (x : F)
| VStr (s : string)
| VList (l : list pyval)
| VDict (d : list (string * pyval))
| VNpyB64 (a : ndarray).

Definition pydict : Type := list (string * pyval).

(** [type(v).__name__] *)
Definition type_name (v : pyval) : string :=
  match v with
  | VNone => "NoneType"
  | VBool _ => "bool"
  | VInt _ => "int"
  | VFloat _ => "float"
  | VStr _ => "str"
  | VList _ => "list"
  | VDict _ => "dict"
  | VNpyB64 _ => "str"
  end.

(** [v == s] for a str literal [s] *)
Definition eq_str (v : pyval) (s : string) : bool :=
  match v with
  | VStr t => String.eqb t s
  | _ => false
  end.

(** [d.get(k)] on an association list *)
Fixpoint lookup (k : string) (d : pydict) : option pyval :=
  match d with
  | [] => None
  | (k', v) :: d' => if String.eqb k' k then Some v else lookup k d'
  end.

(** [d[k] = v]: an existing key keeps its position, a new key goes last *)
Fixpoint setitem (k : string) (v : pyval) (d : pydict) : pydict :=
  match d with
  | [] => [(k, v)]
  | (k', v') :: d' =>
      if String.eqb k' k then (k', v) :: d' else (k', v') :: setitem k v d'
  end.

Definition keys (d : pydict) : list string := map fst d.

Definition has_key (k : string) (d : pydict) : bool :=
  existsb (String.eqb k) (keys d).

(** [a[:n]] on a list *)
Definition slice_to {A : Type} (n : nat) (l : list A) : list A := firstn n l.

End Values.

Arguments ndarray : clear implicits.
Arguments pyval : clear implicits.
Arguments pydict : clear implicits.

(** Python's truth value *)
Definition truthy {F : Type} `{FloatOps F} (v : pyval F) : bool :=
  match v with
  | VNone => false
  | VBool b => b
  | VInt z => negb (z =? 0)
  | VFloat x => float_bool x
  | VStr s => negb (String.eqb s "")
  | VList l => match l with [] => false | _ => true end
  | VDict d => match d with [] => false | _ => true end
  | VNpyB64 _ => true
  end.

(** ** Effects

    A run of a script prints lines on standard output, calls third-party
    code and ends by returning, by raising an [Exception], or by
    [sys.exit].  [SystemExit] is not a subclass of [Exception], so an
    [except Exception] clause lets it through. *)

(** How a computation ends. *)
Inductive outcome (A : Type) : Type :=
| Ret (a : A)
| Raise (msg : string)      (* an Exception [e], kept as [str(e)] *)
| SysExit (code : Z).       (* sys.exit(code) *)

Arguments Ret {A} a.
Arguments Raise {A} msg.
Arguments SysExit {A} code.

Section Effects.
Context {F : Type}.

(** The two values [quantization_config] takes besides [None]:
    [BitsAndBytesConfig(load_in_8bit=True)] and
    [BitsAndBytesConfig(load_in_4bit=True)]. *)
Inductive bnb_config : Type := LoadIn8bit | LoadIn4bit.

(** Calls into third-party code, in the order they happen. *)
Inductive event : Type :=
| EvBitsAndBytesConfig (config : bnb_config)
| EvAudioLDM (model_path : pyval F) (device : string)
    (quantization_config : option bnb_config)
| EvHalf
| EvGradientCheckpointing
| EvMakedirs (output_dir : pyval F)
| EvGenerate (prompt guidance_scale steps duration batch_size : pyval F)
| EvSfWrite (output_path : string) (data : ndarray F) (sample_rate : pyval F)
| EvSfRead (file_path : pyval F)
| EvGetDeviceName
| EvGetDeviceProperties
| EvMemoryAllocated
| EvProcessorFromPretrained (model_name : string)
| EvModelFromPretrained (model_name : string)
| EvModelToCuda
| EvProcessor (audio : ndarray F) (sampling_rate : Z)
| EvInputsToCuda
| EvForward (output_hidden_states : bool)
| EvPrintHelp.   (* argparse writes its help text on standard output *)

(** The process state: the objects handed to [print(json.dumps(...))], one
    per line, and the calls made so far.  The help text of argparse, the
    only other thing a run can write on standard output, is a call
    ([EvPrintHelp]), not an object. *)
Record pstate : Type := {
  stdout : list (pydict F);
  calls : list event
}.

Definition start : pstate := {| stdout := []; calls := [] |}.


Definition Py (A : Type) : Type := pstate -> outcome A * pstate.

Definition ret {A} (a : A) : Py A := fun s => (Ret a, s).

Definition bind {A B} (m : Py A) (k : A -> Py B) : Py B :=
  fun s =>
    match m s with
    | (Ret a, s') => k a s'
    | (Raise e, s') => (Raise e, s')
    | (SysExit c, s') => (SysExit c, s')
    end.

Definition raise {A} (msg : string) : Py A := fun s => (Raise msg, s).

(** [sys.exit(code)] *)
Definition sys_exit {A} (code : Z) : Py A := fun s => (SysExit code, s).

(** [try: body  except Exception as e: handler(str(e))] *)
Definition try_except {A} (body : Py A) (handler : string -> Py A) : Py A :=
  fun s =>
    match body s with
    | (Raise e, s') => handler e s'
    | r => r
    end.

(** [print(json.dumps(d))] *)
Definition print_json (d : pydict F) : Py unit :=
  fun s => (Ret tt, {| stdout := stdout s ++ [d]; calls := calls s |}).

(** A call into third-party code: it is recorded, and returns or raises as
    the environment says. *)
Definition extern {A} (e : event) (answer : string + A) : Py A :=
  fun s =>
    let s' := {| stdout := stdout s; calls := calls s ++ [e] |} in
    match answer with
    | inl msg => (Raise msg, s')
    | inr a => (Ret a, s')
    end.

(** A pure computation that may raise. *)
Definition lift {A} (answer : string + A) : Py A :=
  fun s =>
    match answer with
    | inl msg => (Raise msg, s)
    | inr a => (Ret a, s)
    end.

(** What the parent process observes. *)
Record observed : Type := {
  printed : list (pydict F);
  exit_code : Z;
  called : list event
}.

(** Running a script's [main] as a process: a normal return exits 0, an
    uncaught exception prints a traceback on standard error and exits 1,
    [sys.exit(c)] exits [c]. *)
Definition run_process (m : Py unit) : observed :=
  match m start with
  | (Ret _, s) => {| printed := stdout s; exit_code := 0; called := calls s |}
  | (Raise _, s) => {| printed := stdout s; exit_code := 1; called := calls s |}
  | (SysExit c, s) => {| printed := stdout s; exit_code := c; called := calls s |}
  end.

(** [params.get(key, default)]: only a dict has the method. *)
Definition get (params : pyval F) (key : string) (default : pyval F)
  : Py (pyval F) :=
  match params with
  | VDict d =>
      match lookup key d with
      | Some v => ret v
      | None => ret default
      end
  | v => raise ("'" ++ type_name v ++ "' object has no attribute 'get'")
  end.

End Effects.

Arguments event : clear implicits.
Arguments pstate : clear implicits.
Arguments Py : clear implicits.
Arguments observed : clear implicits.

Declare Scope py_scope.
Delimit Scope py_scope with py.
Notation "x <- m ;; k" := (bind m (fun x => k))
  (at level 61, m at next level, right associativity) : py_scope.
Notation "' pat <- m ;; k" :=
  (bind m (fun x => match x with pat => k end))
  (at level 61, pat pattern, m at next level, right associativity) : py_scope.
Notation "m ;;; k" := (bind m (fun _ => k))
  (at level 61, right associativity) : py_scope.
Open Scope py_scope.

(** ** Command lines

    [sys.argv[1:]] as argparse reads it, argument by argument.  Matching an
    argument against the option strings (exact, by unambiguous prefix, or in
    the [--option=value] form) is argparse's own; what the parser of each
    script adds is its options, the choices of [--operation] and that all
    its options are required. *)

Section CommandLine.
Context {F : Type} {O S : Type}.

(** What argparse takes the next argument (with its value, for an option of
    the script) to be. *)
Inductive arg : Type :=
| Help                            (* [-h] or [--help] *)
| Given (option : O) (value : string)   (* an option of the script and its value *)
| Unrecognized (text : string)    (* matches no option: kept for the end *)
| Malformed.                      (* an option without the value it expects,
                                     or [--help=...]: refused on sight *)

(** [valid o v]: the value passes the [choices] of the option, if it has
    any.  [store o v seen]: the namespace after [setattr]. *)
Variable valid : O -> string -> bool.
Variable store : O -> string -> S -> S.

(** The loop of [parse_known_args] over the arguments, left to right.  The
    help action prints and exits with status 0 at once; an argument refused
    on sight and a value outside the choices end the process with status 2
    (the message goes to standard error); a later value of an option
    replaces an earlier one; unrecognized arguments are collected. *)
Fixpoint read_args (argv : list arg) (seen : S) (extras : list string)
  : Py F (S * list string) :=
  match argv with
  | [] => ret (seen, extras)
  | Help :: _ => extern EvPrintHelp (inr tt) ;;; sys_exit 0
  | Malformed :: _ => sys_exit 2
  | Given o v :: rest =>
      if valid o v then read_args rest (store o v seen) extras
      else sys_exit 2
  | Unrecognized text :: rest => read_args rest seen (extras ++ [text])
  end.

(** The values the options are left with when every argument is read. *)
Fixpoint stored (argv : list arg) (seen : S) : S :=
  match argv with
  | [] => seen
  | Given o v :: rest => stored rest (store o v seen)
  | _ :: rest => stored rest seen
  end.

(** The arguments that match no option, in order. *)
Fixpoint unrecognized (argv : list arg) : list string :=
  match argv with
  | [] => []
  | Unrecognized text :: rest => text :: unrecognized rest
  | _ :: rest => unrecognized rest
  end.

(** Every value given to an option passes its choices. *)
Definition all_valid (argv : list arg) : Prop :=
  forall o v, In (Given o v) argv -> valid o v = true.

End CommandLine.

Arguments arg : clear implicits.

(** ** First adapter: [scripts/audioldm_operations.py] *)

Module AudioLDM.

Section Script.
Context {F : Type} `{FloatOps F}.

(** A model handle, described by how it was built. *)
Record model : Type := {
  model_path : pyval F;
  device : string;
  quantization_config : option bnb_config;
  half_precision : bool
}.

(** The answers of the third-party libraries during one run. *)
Record Env : Type := {
  (** [json.loads(s)] *)
  json_loads : string -> string + pyval F;
  (** [torch.cuda.is_available()] *)
  cuda_is_available : bool;
  (** importing and calling [BitsAndBytesConfig] *)
  BitsAndBytesConfig : bnb_config -> string + unit;
  (** [AudioLDM(model_path=.., device=.., quantization_config=..)] *)
  AudioLDM_init : pyval F -> string -> option bnb_config -> string + unit;
  (** [model.half()] *)
  half : model -> string + unit;
  (** [hasattr(model, 'enable_gradient_checkpointing')] *)
  hasattr_gradient_checkpointing : model -> bool;
  (** [model.enable_gradient_checkpointing()] *)
  enable_gradient_checkpointing : model -> string + unit;
  (** [os.makedirs(output_dir, exist_ok=True)] *)
  makedirs : pyval F -> string + unit;
  (** [str(v)] for a value that is not a str *)
  str_of : pyval F -> string;
  (** [model.generate(text=.., guidance_scale=.., num_inference_steps=..,
      duration=.., num_waveforms_per_prompt=..)]: a batch of waveforms *)
  generate :
    model -> pyval F -> pyval F -> pyval F -> pyval F -> pyval F ->
    string + list (ndarray F);
  (** [sf.write(output_path, data, sample_rate)] *)
  sf_write : string -> ndarray F -> pyval F -> string + unit;
  (** [sf.read(file_path)] *)
  sf_read : pyval F -> string + (ndarray F * Z);
  (** [torch.cuda.get_device_name(0)] *)
  get_device_name : string + string;
  (** [torch.cuda.get_device_properties(0).total_memory] *)
  total_memory : string + Z;
  (** [torch.cuda.memory_allocated(0)] *)
  memory_allocated : string + Z;
  (** [torch.version.cuda] *)
  cuda_version : pyval F;
  (** [sys.version] *)
  sys_version : string;
  (** [torch.__version__] *)
  torch_version : string
}.

Variable env : Env.

Definition load_model (model_path quantization use_half_precision : pyval F)
  : Py F model :=
  try_except
    (quantization_config <-
       (if eq_str quantization "8bit" then
          extern (EvBitsAndBytesConfig LoadIn8bit)
                 (BitsAndBytesConfig env LoadIn8bit) ;;;
          ret (Some LoadIn8bit)
        else if eq_str quantization "4bit" then
          extern (EvBitsAndBytesConfig LoadIn4bit)
                 (BitsAndBytesConfig env LoadIn4bit) ;;;
          ret (Some LoadIn4bit)
        else ret None) ;;
     let device := if cuda_is_available env then "cuda" else "cpu" in
     extern (EvAudioLDM model_path device quantization_config)
            (AudioLDM_init env model_path device quantization_config) ;;;
     let model :=
       {| model_path := model_path; device := device;
          quantization_config := quantization_config;
          half_precision := false |} in
     model <-
       (if truthy use_half_precision && eq_str quantization "none"
           && String.eqb device "cuda"
        then
          extern EvHalf (half env model) ;;;
          ret {| model_path := model_path; device := device;
                 quantization_config := quantization_config;
                 half_precision := true |}
        else ret model) ;;
     (if hasattr_gradient_checkpointing env model then
        extern EvGradientCheckpointing (enable_gradient_checkpointing env model)
      else ret tt) ;;;
     ret model)
    (fun e => print_json [("error", VStr e)] ;;; sys_exit 1).

(** [f"{v}"] *)
Definition format (v : pyval F) : string :=
  match v with
  | VStr s => s
  | _ => str_of env v
  end.

(** [os.path.join(a, b)] (posixpath) for a str [b] *)
Definition os_path_join (a : pyval F) (b : string) : string + string :=
  match a with
  | VStr a =>
      if String.prefix "/" b then inr b
      else if String.eqb a "" || String.eqb
                (String.substring (String.length a - 1) 1 a) "/"
      then inr (a ++ b)
      else inr (a ++ "/" ++ b)
  | v => inl ("expected str, bytes or os.PathLike object, not " ++ type_name v)
  end.

(** [waveform[0]] *)
Definition item0 (waveform : list (ndarray F)) : string + ndarray F :=
  match waveform with
  | [] => inl "index 0 is out of bounds for axis 0 with size 0"
  | w :: _ => inr w
  end.

Definition generate_audio (model : model)
  (prompt output_dir output_name steps guidance_scale batch_size duration
     sample_rate : pyval F) : Py F (pydict F) :=
  try_except
    (extern (EvMakedirs output_dir) (makedirs env output_dir) ;;;
     output_path <- lift (os_path_join output_dir (format output_name ++ ".wav")) ;;
     waveform <-
       extern (EvGenerate prompt guidance_scale steps duration batch_size)
              (generate env model prompt guidance_scale steps duration
                        batch_size) ;;
     w0 <- lift (item0 waveform) ;;
     extern (EvSfWrite output_path w0 sample_rate)
            (sf_write env output_path w0 sample_rate) ;;;
     ret [("path", VStr output_path);
          ("sample_rate", sample_rate);
          ("duration", duration)])
    (fun e => ret [("error", VStr e)]).

(** [np.mean(audio, axis=1)] *)
Definition mean_axis1 (audio : ndarray F) : string + ndarray F :=
  match audio with
  | Arr1 _ => inl "axis 1 is out of bounds for array of dimension 1"
  | Arr2 _ rows => inr (Arr1 (map np_mean rows))
  end.

(** [audio.astype(np.float32)] *)
Definition astype (audio : ndarray F) : ndarray F :=
  match audio with
  | Arr1 xs => Arr1 (map astype_float32 xs)
  | Arr2 c rows => Arr2 c (map (map astype_float32) rows)
  end.

(** [n / d] on ints *)
Definition truediv (n d : Z) : string + F :=
  if d =? 0 then inl "division by zero" else inr (int_truediv n d).

Definition read_audio_file (file_path : pyval F) : Py F (pydict F) :=
  try_except
    ('(audio, sample_rate) <-
       extern (EvSfRead file_path) (sf_read env file_path) ;;
     audio <-
       (if ((1 <? List.length (shape audio))
            && (1 <? nth 1 (shape audio) 0))%nat
        then lift (mean_axis1 audio)
        else ret audio) ;;
     let audio := astype audio in
     duration <- lift (truediv (Z.of_nat (len audio)) sample_rate) ;;
     ret [("audio_data", VNpyB64 audio);
          ("sample_rate", VInt sample_rate);
          ("duration", VFloat duration)])
    (fun e => ret [("error", VStr e)]).

Definition test_environment : Py F (pydict F) :=
  try_except
    (let cuda_available := cuda_is_available env in
     gpu_info <-
       (if cuda_available then
          name <- extern EvGetDeviceName (get_device_name env) ;;
          mem_total <- extern EvGetDeviceProperties (total_memory env) ;;
          mem_allocated <- extern EvMemoryAllocated (memory_allocated env) ;;
          ret [("name", VStr name);
               ("mem_total", VInt mem_total);
               ("mem_allocated", VInt mem_allocated);
               ("cuda_version", cuda_version env)]
        else ret []) ;;
     ret [("status", VStr "ok");
          ("python_version", VStr (sys_version env));
          ("pytorch_version", VStr (torch_version env));
          ("cuda_available", VBool cuda_available);
          ("gpu_info", VDict gpu_info)])
    (fun e => ret [("error", VStr e)]).

(** The options of the parser. *)
Inductive option_name : Type := OptOperation | OptRequestId | OptParams.

(** The command line. *)
Definition Argv : Type := list (arg option_name).

(** The value each option has been given so far, if any. *)
Record Options : Type := {
  opt_operation : option string;
  opt_request_id : option string;
  opt_params : option string
}.

Definition no_options : Options :=
  {| opt_operation := None; opt_request_id := None; opt_params := None |}.

Definition store (o : option_name) (v : string) (seen : Options) : Options :=
  match o with
  | OptOperation =>
      {| opt_operation := Some v; opt_request_id := opt_request_id seen;
         opt_params := opt_params seen |}
  | OptRequestId =>
      {| opt_operation := opt_operation seen; opt_request_id := Some v;
         opt_params := opt_params seen |}
  | OptParams =>
      {| opt_operation := opt_operation seen;
         opt_request_id := opt_request_id seen; opt_params := Some v |}
  end.

(** [args], the namespace [parse_args] returns. *)
Record Namespace : Type := {
  operation : string;
  request_id : string;
  params : string
}.

Definition choices : list string :=
  ["test-env"; "load-model"; "generate"; "read-audio"].

(** Only [--operation] has choices. *)
Definition valid (o : option_name) (v : string) : bool :=
  match o with
  | OptOperation => existsb (String.eqb v) choices
  | _ => true
  end.

(** [parser.parse_args()]: the arguments are read in order; then the three
    options, all required, must have a value, and no unrecognized argument
    may be left.  On a violation argparse writes the usage on standard
    error and exits with status 2. *)
Definition parse_args (argv : Argv) : Py F Namespace :=
  '(seen, extras) <- read_args valid store argv no_options [] ;;
  match opt_operation seen, opt_request_id seen, opt_params seen with
  | Some op, Some rid, Some p =>
      match extras with
      | [] => ret {| operation := op; request_id := rid; params := p |}
      | _ :: _ => sys_exit 2
      end
  | _, _, _ => sys_exit 2
  end.

(** The command line that gives each option once. *)
Definition command_line (op rid p : string) : Argv :=
  [Given OptOperation op; Given OptRequestId rid; Given OptParams p].

(** The values given to [--operation], in order. *)
Fixpoint operations (argv : Argv) : list string :=
  match argv with
  | [] => []
  | Given OptOperation v :: rest => v :: operations rest
  | _ :: rest => operations rest
  end.

(** The body of the [try] in [main] up to the assignment of [result]. *)
Definition dispatch (args : Namespace) (params : pyval F) : Py F (pydict F) :=
  if String.eqb (operation args) "test-env" then
    test_environment
  else if String.eqb (operation args) "load-model" then
    a1 <- get params "model_path" (VStr "latent-diffusion/audioldm-s-full") ;;
    a2 <- get params "quantization" (VStr "8bit") ;;
    a3 <- get params "use_half_precision" (VBool true) ;;
    load_model a1 a2 a3 ;;;
    ret [("status", VStr "Model loaded successfully")]
  else if String.eqb (operation args) "generate" then
    a1 <- get params "model_path" (VStr "latent-diffusion/audioldm-s-full") ;;
    a2 <- get params "quantization" (VStr "8bit") ;;
    a3 <- get params "use_half_precision" (VBool true) ;;
    model <- load_model a1 a2 a3 ;;
    prompt <- get params "prompt" (VStr "") ;;
    output_dir <- get params "output_dir" (VStr "./output") ;;
    output_name <- get params "output_name" (VStr "audio") ;;
    steps <- get params "steps" (VInt 25) ;;
    guidance_scale <- get params "guidance_scale" (VFloat (float_literal (7 # 2))) ;;
    batch_size <- get params "batch_size" (VInt 1) ;;
    duration <- get params "duration" (VFloat (float_literal (5 # 1))) ;;
    sample_rate <- get params "sample_rate" (VInt 16000) ;;
    generate_audio model prompt output_dir output_name steps guidance_scale
                   batch_size duration sample_rate
  else if String.eqb (operation args) "read-audio" then
    file_path <- get params "file_path" (VStr "") ;;
    read_audio_file file_path
  else ret [].

Definition main (argv : Argv) : Py F unit :=
  args <- parse_args argv ;;
  params <- lift (json_loads env (params args)) ;;
  try_except
    (result <- dispatch args params ;;
     let result := setitem "request_id" (VStr (request_id args)) result in
     print_json result)
    (fun e =>
       print_json [("error", VStr e); ("request_id", VStr (request_id args))] ;;;
       sys_exit 1).

End Script.
End AudioLDM.

(** ** Second adapter: [scripts/wav2vec2_operations.py] *)

Module Wav2Vec2.

Section Script.
Context {F : Type} `{FloatOps F}.

(** The loaded model, described by where it lives. *)
Record model : Type := {
  model_name : string;
  on_cuda : bool
}.

(** The processor's output, described by what it was computed from. *)
Record inputs : Type := {
  input_audio : ndarray F;
  input_rate : Z;
  inputs_on_cuda : bool
}.

(** The answers of the third-party libraries during one run. *)
Record Env : Type := {
  (** [torch.cuda.is_available()] *)
  cuda_is_available : bool;
  (** [Wav2Vec2Processor.from_pretrained(model_name)] *)
  processor_from_pretrained : string -> string + unit;
  (** [Wav2Vec2ForCTC.from_pretrained(model_name)] *)
  model_from_pretrained : string -> string + unit;
  (** [model.to("cuda")] *)
  model_to_cuda : string + unit;
  (** [sf.read(audio_path)] *)
  sf_read : string -> string + (ndarray F * Z);
  (** [processor(audio, sampling_rate=.., return_tensors="pt")] *)
  processor_call : ndarray F -> Z -> string + unit;
  (** moving every tensor of [inputs] to the accelerator *)
  inputs_to_cuda : ndarray F -> Z -> string + unit;
  (** the forward pass of the model on [inputs], with or without
      [output_hidden_states=True] *)
  forward : model -> inputs -> bool -> string + unit;
  (** [processor.batch_decode(torch.argmax(logits, dim=-1))] *)
  batch_decode : model -> inputs -> string + list string;
  (** [float(torch.max(logits).cpu().numpy())] *)
  max_logit : model -> inputs -> string + F;
  (** [outputs.hidden_states[-1].mean(dim=1).cpu().numpy().tolist()] *)
  pooled_hidden_state : model -> inputs -> string + list (list F)
}.

Variable env : Env.

Definition load_model (model_name : string) : Py F (model * unit) :=
  processor <-
    extern (EvProcessorFromPretrained model_name)
           (processor_from_pretrained env model_name) ;;
  extern (EvModelFromPretrained model_name)
         (model_from_pretrained env model_name) ;;;
  let model := {| model_name := model_name; on_cuda := false |} in
  model <-
    (if cuda_is_available env then
       extern EvModelToCuda (model_to_cuda env) ;;;
       ret {| model_name := model_name; on_cuda := true |}
     else ret model) ;;
  ret (model, processor).

(** The lines the two handlers share: read the file, run the processor,
    move the inputs to the accelerator. *)
Definition prepare_inputs (audio_path : string) : Py F inputs :=
  '(audio, sample_rate) <-
    extern (EvSfRead (VStr audio_path)) (sf_read env audio_path) ;;
  extern (EvProcessor audio sample_rate)
         (processor_call env audio sample_rate) ;;;
  let inputs :=
    {| input_audio := audio; input_rate := sample_rate;
       inputs_on_cuda := false |} in
  if cuda_is_available env then
    extern EvInputsToCuda (inputs_to_cuda env audio sample_rate) ;;;
    ret {| input_audio := audio; input_rate := sample_rate;
           inputs_on_cuda := true |}
  else ret inputs.

(** [l[0]] on a list *)
Definition first {A : Type} (l : list A) : string + A :=
  match l with
  | [] => inl "list index out of range"
  | x :: _ => inr x
  end.

Definition process_audio (audio_path : string) (model : model)
  (processor : unit) : Py F (pydict F) :=
  inputs <- prepare_inputs audio_path ;;
  extern (EvForward false) (forward env model inputs false) ;;;
  transcription <- lift (batch_decode env model inputs) ;;
  t0 <- lift (first transcription) ;;
  confidence <- lift (max_logit env model inputs) ;;
  ret [("transcription", VStr t0);
       ("confidence", VFloat confidence)].

Definition analyze_audio (audio_path : string) (model : model)
  (processor : unit) : Py F (pydict F) :=
  inputs <- prepare_inputs audio_path ;;
  extern (EvForward true) (forward env model inputs true) ;;;
  features <- lift (pooled_hidden_state env model inputs) ;;
  feature_list <- lift (first features) ;;
  ret [("features", VList (map VFloat (slice_to 20 feature_list)));
       ("feature_count", VInt (Z.of_nat (List.length feature_list)))].

(** The options of the parser. *)
Inductive option_name : Type := OptOperation | OptAudio | OptRequestId.

(** The command line. *)
Definition Argv : Type := list (arg option_name).

(** The value each option has been given so far, if any. *)
Record Options : Type := {
  opt_operation : option string;
  opt_audio : option string;
  opt_request_id : option string
}.

Definition no_options : Options :=
  {| opt_operation := None; opt_audio := None; opt_request_id := None |}.

Definition store (o : option_name) (v : string) (seen : Options) : Options :=
  match o with
  | OptOperation =>
      {| opt_operation := Some v; opt_audio := opt_audio seen;
         opt_request_id := opt_request_id seen |}
  | OptAudio =>
      {| opt_operation := opt_operation seen; opt_audio := Some v;
         opt_request_id := opt_request_id seen |}
  | OptRequestId =>
      {| opt_operation := opt_operation seen; opt_audio := opt_audio seen;
         opt_request_id := Some v |}
  end.

(** [args], the namespace [parse_args] returns. *)
Record Namespace : Type := {
  operation : string;
  audio : string;
  request_id : string
}.

Definition choices : list string := ["process"; "analyze"].

(** Only [--operation] has choices. *)
Definition valid (o : option_name) (v : string) : bool :=
  match o with
  | OptOperation => existsb (String.eqb v) choices
  | _ => true
  end.

(** [parser.parse_args()], as in the first adapter. *)
Definition parse_args (argv : Argv) : Py F Namespace :=
  '(seen, extras) <- read_args valid store argv no_options [] ;;
  match opt_operation seen, opt_audio seen, opt_request_id seen with
  | Some op, Some a, Some rid =>
      match extras with
      | [] => ret {| operation := op; audio := a; request_id := rid |}
      | _ :: _ => sys_exit 2
      end
  | _, _, _ => sys_exit 2
  end.

(** The command line that gives each option once. *)
Definition command_line (op a rid : string) : Argv :=
  [Given OptOperation op; Given OptAudio a; Given OptRequestId rid].

(** The values given to [--operation], in order. *)
Fixpoint operations (argv : Argv) : list string :=
  match argv with
  | [] => []
  | Given OptOperation v :: rest => v :: operations rest
  | _ :: rest => operations rest
  end.

(** The body of the [try] in [main] up to the assignment of [result]. *)
Definition dispatch (args : Namespace) : Py F (pydict F) :=
  '(model, processor) <- load_model "facebook/wav2vec2-base-960h" ;;
  if String.eqb (operation args) "process"
  then process_audio (audio args) model processor
  else analyze_audio (audio args) model processor.

Definition main (argv : Argv) : Py F unit :=
  args <- parse_args argv ;;
  try_except
    (result <- dispatch args ;;
     let result := setitem "request_id" (VStr (request_id args)) result in
     print_json result)
    (fun e =>
       print_json [("error", VStr e); ("request_id", VStr (request_id args))] ;;;
       sys_exit 1).

End Script.
End Wav2Vec2.

(** ** Invocations of either adapter *)

Section Invocations.
Context {F : Type} `{FloatOps F}.

(** One run of one of the two scripts: the answers of the libraries and the
    command line. *)
Inductive invocation : Type :=
| RunAudioLDM (env : AudioLDM.Env (F := F)) (argv : AudioLDM.Argv)
| RunWav2Vec2 (env : Wav2Vec2.Env (F := F)) (argv : Wav2Vec2.Argv).

Definition run (i : invocation) : observed F :=
  match i with
  | RunAudioLDM env argv => run_process (AudioLDM.main env argv)
  | RunWav2Vec2 env argv => run_process (Wav2Vec2.main env argv)
  end.

(** The values the command line leaves [--operation] and [--request-id]
    with (the last one given, if any). *)
Definition operation_of (i : invocation) : option string :=
  match i with
  | RunAudioLDM _ argv =>
      AudioLDM.opt_operation (stored AudioLDM.store argv AudioLDM.no_options)
  | RunWav2Vec2 _ argv =>
      Wav2Vec2.opt_operation (stored Wav2Vec2.store argv Wav2Vec2.no_options)
  end.

Definition request_id_of (i : invocation) : option string :=
  match i with
  | RunAudioLDM _ argv =>
      AudioLDM.opt_request_id (stored AudioLDM.store argv AudioLDM.no_options)
  | RunWav2Vec2 _ argv =>
      Wav2Vec2.opt_request_id (stored Wav2Vec2.store argv Wav2Vec2.no_options)
  end.



(** How the [try] block of [main] ends before [result] is tagged and
    printed, for a command line that argparse accepts and, in the first
    adapter, a [--params] value that [json.loads] decodes. *)
Definition attempt (i : invocation) : option (outcome (pydict F)) :=
  match i with
  | RunAudioLDM env argv =>
      match AudioLDM.parse_args argv start with
      | (Ret args, s) =>
          match AudioLDM.json_loads env (AudioLDM.params args) with
          | inr params => Some (fst (AudioLDM.dispatch env args params s))
          | inl _ => None
          end
      | _ => None
      end
  | RunWav2Vec2 env argv =>
      match Wav2Vec2.parse_args argv start with
      | (Ret args, s) => Some (fst (Wav2Vec2.dispatch env args s))
      | _ => None
      end
  end.

(** The [try] block reports a failure: through an [error] key in [result],
    as the handlers of the first adapter do, or by an exception that
    reaches the [except] clause of [main]. *)
Definition reports_failure (r : outcome (pydict F)) : Prop :=
  match r with
  | Ret d => has_key "error" d = true
  | Raise _ => True
  | SysExit _ => False
  end.

(** The closed set of operation names of the adapter that is run. *)
Definition choices_of (i : invocation) : list string :=
  match i with
  | RunAudioLDM _ _ => AudioLDM.choices
  | RunWav2Vec2 _ _ => Wav2Vec2.choices
  end.

End Invocations.

(** ** Shapes of results *)

Section Contracts.
Context {F : Type}.

(** The calls made between two states of one run. *)
Definition made (before after : pstate F) : list (event F) :=
  skipn (List.length (calls before)) (calls after).

(** The two kinds of dictionary a handler hands to [main]: the error
    dictionary of an [except] clause, or a dictionary of success fields. *)
Definition error_dict (d : pydict F) : Prop :=
  exists msg, d = [("error", VStr msg)].

Definition success_dict (d : pydict F) : Prop :=
  has_key "error" d = false /\ has_key "request_id" d = false.

(** A handler that catches every exception itself: it returns one of the
    two, whatever the libraries answer, and prints nothing. *)
Definition returns_payload (m : Py F (pydict F)) : Prop :=
  forall s, exists d s',
    m s = (Ret d, s') /\ stdout s' = stdout s /\
    (error_dict d \/ success_dict d).

(** The three ways the [try] block of the first adapter ends: with a
    result, with an exception, or by the [sys.exit(1)] of [load_model] after
    it has printed its own error. *)
Definition dispatch_post (s : pstate F)
  (r : outcome (pydict F) * pstate F) : Prop :=
  match r with
  | (Ret d, s') => stdout s' = stdout s /\ (error_dict d \/ success_dict d)
  | (Raise e, s') => stdout s' = stdout s
  | (SysExit c, s') =>
      c = 1 /\ exists msg, stdout s' = (stdout s ++ [[("error", VStr msg)]])%list
  end.

(** The two ways the [try] block of the second adapter ends. *)
Definition w2v_dispatch_post (s : pstate F)
  (r : outcome (pydict F) * pstate F) : Prop :=
  match r with
  | (Ret d, s') => stdout s' = stdout s /\ success_dict d
  | (Raise e, s') => stdout s' = stdout s
  | (SysExit c, s') => False
  end.

End Contracts.

(** ** Vocabulary for the properties of whole runs *)

Section RunVocabulary.
Context {F : Type}.

(** [params.get(key, default)] on a dict, as a value. *)
Definition get_or (d : pydict F) (key : string) (default : pyval F) : pyval F :=
  match lookup key d with
  | Some v => v
  | None => default
  end.

(** The calls [load_model] of the first adapter makes. *)
Definition loader_event (e : event F) : bool :=
  match e with
  | EvBitsAndBytesConfig _ | EvAudioLDM _ _ _ | EvHalf
  | EvGradientCheckpointing => true
  | _ => false
  end.

(** The calls [generate_audio] makes. *)
Definition generation_event (e : event F) : bool :=
  match e with
  | EvMakedirs _ | EvGenerate _ _ _ _ _ | EvSfWrite _ _ _ => true
  | _ => false
  end.

(** The [quantization_config] that [load_model] builds for a value of
    [quantization]. *)
Definition config_for (quantization : pyval F) : option bnb_config :=
  if eq_str quantization "8bit" then Some LoadIn8bit
  else if eq_str quantization "4bit" then Some LoadIn4bit
  else None.

(** The keys of the object a successful run prints, by operation. *)
Definition success_keys (operation : string) : list string :=
  if String.eqb operation "test-env" then
    ["status"; "python_version"; "pytorch_version"; "cuda_available";
     "gpu_info"; "request_id"]
  else if String.eqb operation "load-model" then ["status"; "request_id"]
  else if String.eqb operation "generate" then
    ["path"; "sample_rate"; "duration"; "request_id"]
  else if String.eqb operation "read-audio" then
    ["audio_data"; "sample_rate"; "duration"; "request_id"]
  else if String.eqb operation "process" then
    ["transcription"; "confidence"; "request_id"]
  else if String.eqb operation "analyze" then
    ["features"; "feature_count"; "request_id"]
  else [].

(** The calls by which the second adapter loads its model. *)
Definition w2v_loader_event (e : event F) : bool :=
  match e with
  | EvProcessorFromPretrained _ | EvModelFromPretrained _ | EvModelToCuda => true
  | _ => false
  end.

End RunVocabulary.

Section CommandLines.
Context {F : Type} `{FloatOps F}.





End CommandLines.

(** ** Concrete runs

    Floats idealised as rationals, and environments in which the libraries
    give fixed answers. *)

Module Rational.

#[export] Instance ops : FloatOps Q := {
  np_mean row :=
    Qred (fold_right Qplus 0%Q row / inject_Z (Z.of_nat (List.length row)));
  astype_float32 x := x;
  int_truediv a b := Qred (inject_Z a / inject_Z b);
  float_bool x := negb (Qeq_bool x 0);
  float_literal q := q
}.

(** A machine on which every library call succeeds, but for the answers
    that are parameters: [decoded] is what [json.loads] answers on the value
    of [--params], [cuda] whether an accelerator is present, [init] what the
    [AudioLDM] constructor answers, [generated] what [model.generate]
    answers and [read] what [sf.read] answers. *)
Definition audioldm_env (decoded : string + pyval Q) (cuda : bool)
  (init : string + unit) (generated : string + list (ndarray Q))
  (read : string + (ndarray Q * Z)) : AudioLDM.Env := {|
  AudioLDM.json_loads _ := decoded;
  AudioLDM.cuda_is_available := cuda;
  AudioLDM.BitsAndBytesConfig _ := inr tt;
  AudioLDM.AudioLDM_init _ _ _ := init;
  AudioLDM.half _ := inr tt;
  AudioLDM.hasattr_gradient_checkpointing _ := true;
  AudioLDM.enable_gradient_checkpointing _ := inr tt;
  AudioLDM.makedirs _ := inr tt;
  AudioLDM.str_of _ := "None";
  AudioLDM.generate _ _ _ _ _ _ := generated;
  AudioLDM.sf_write _ _ _ := inr tt;
  AudioLDM.sf_read _ := read;
  AudioLDM.get_device_name := inr "GPU";
  AudioLDM.total_memory := inr 8589934592;
  AudioLDM.memory_allocated := inr 0;
  AudioLDM.cuda_version := VStr "12.1";
  AudioLDM.sys_version := "3.10.12";
  AudioLDM.torch_version := "2.1.0"
|}.

Definition audioldm_argv (op rid params : string) : AudioLDM.Argv :=
  AudioLDM.command_line op rid params.

(** [sf.read] on a missing file *)
Definition no_such_file : string + (ndarray Q * Z) :=
  inl "Error opening '': System error.".

(** One generated waveform of two samples *)
Definition one_waveform : string + list (ndarray Q) := inr [Arr1 [0; 0]%Q].

(** Two stereo frames, (1, 3) and (2, 4). *)
Definition stereo : ndarray Q := Arr2 2 [[1; 3]; [2; 4]]%Q.

(** A machine without accelerator on which every library call succeeds:
    [read] is what [sf.read] answers and [pooled] the pooled hidden state
    of the model. *)
Definition wav2vec2_env (read : string + (ndarray Q * Z))
  (pooled : list (list Q)) : Wav2Vec2.Env := {|
  Wav2Vec2.cuda_is_available := false;
  Wav2Vec2.processor_from_pretrained _ := inr tt;
  Wav2Vec2.model_from_pretrained _ := inr tt;
  Wav2Vec2.model_to_cuda := inr tt;
  Wav2Vec2.sf_read _ := read;
  Wav2Vec2.processor_call _ _ := inr tt;
  Wav2Vec2.inputs_to_cuda _ _ := inr tt;
  Wav2Vec2.forward _ _ _ := inr tt;
  Wav2Vec2.batch_decode _ _ := inr ["HELLO"];
  Wav2Vec2.max_logit _ _ := inr 12%Q;
  Wav2Vec2.pooled_hidden_state _ _ := inr pooled
|}.

Definition wav2vec2_argv (op rid : string) : Wav2Vec2.Argv :=
  Wav2Vec2.command_line op "clip.wav" rid.

(** A pooled hidden state of 24 values. *)
Definition pooled24 : list Q :=
  map inject_Z
    [1; 2; 3; 4; 5; 6; 7; 8; 9; 10; 11; 12; 13; 14; 15; 16; 17; 18; 19; 20;
     21; 22; 23; 24].

End Rational.

(** Further values for concrete runs. *)
Module Fixtures.

(** The handle of a successful default load on a machine with CUDA. *)
Definition loaded : AudioLDM.model (F := Q) :=
  {| AudioLDM.model_path := VStr "latent-diffusion/audioldm-s-full";
     AudioLDM.device := "cuda";
     AudioLDM.quantization_config := Some LoadIn8bit;
     AudioLDM.half_precision := false |}.

(** A pooled hidden state of 3 values. *)
Definition pooled3 : list Q := [1; 2; 3]%Q.

End Fixtures.

(** * Theorems *)

Ltac unfold_py :=
  unfold try_except, bind, extern, lift, ret, raise, sys_exit, print_json in *.

Ltac case_step :=
  match goal with
  | |- context [match ?x with _ => _ end] =>
      lazymatch x with
      | context [match _ with _ => _ end] => fail
      | _ => destruct x eqn:?
      end
  end.

Ltac py_cases := unfold_py; cbn zeta; repeat (case_step; cbn [snd fst stdout calls]).

Section CommandLineFacts.
Context {F O S : Type}.
Variable valid : O -> string -> bool.
Variable store : O -> string -> S -> S.

(** The three ways the reading of the arguments ends: every argument was
    read; one was refused; the help was asked for before any refusal. *)
Lemma read_args_cases (argv : list (arg O)) (seen : S) (extras : list string)
  (s : pstate F) :
  (read_args valid store argv seen extras s
   = (Ret (stored store argv seen, (extras ++ unrecognized argv)%list), s) /\
   all_valid valid argv /\ ~ In Help argv /\ ~ In Malformed argv) \/
  (read_args valid store argv seen extras s = (SysExit 2, s) /\
   (In Malformed argv \/
    exists o v, In (Given o v) argv /\ valid o v = false)) \/
  (read_args valid store argv seen extras s
   = (SysExit 0, {| stdout := stdout s; calls := calls s ++ [EvPrintHelp] |}) /\
   In Help argv).
Proof.
  revert seen extras.
  induction argv as [|a argv IH]; intros seen extras.
  - left. cbn. rewrite app_nil_r. repeat split; auto.
    intros o v [].
  - destruct a as [|o v|text|].
    + right. right. split; [reflexivity | left; reflexivity].
    + cbn [read_args stored unrecognized].
      destruct (valid o v) eqn:V.
      * destruct (IH (store o v seen) extras)
          as [(E & A & NH & NM)|[(E & B)|(E & I)]].
        -- left. split; [exact E|]. repeat split.
           ++ intros o' v' [X|X]; [inversion X; subst; exact V | eauto].
           ++ intros [X|X]; [discriminate | auto].
           ++ intros [X|X]; [discriminate | auto].
        -- right. left. split; [exact E|].
           destruct B as [B|(o' & v' & B & B')]; [left; right; exact B|].
           right. exists o', v'. split; [right; exact B | exact B'].
        -- right. right. split; [exact E | right; exact I].
      * right. left. split; [reflexivity|]. right. exists o, v.
        split; [left; reflexivity | exact V].
    + cbn [read_args stored unrecognized].
      destruct (IH seen (extras ++ [text])%list)
        as [(E & A & NH & NM)|[(E & B)|(E & I)]].
      * left. rewrite <- app_assoc in E. split; [exact E|]. repeat split.
        -- intros o' v' [X|X]; [discriminate | eauto].
        -- intros [X|X]; [discriminate | auto].
        -- intros [X|X]; [discriminate | auto].
      * right. left. split; [exact E|].
        destruct B as [B|(o' & v' & B & B')]; [left; right; exact B|].
        right. exists o', v'. split; [right; exact B | exact B'].
      * right. right. split; [exact E | right; exact I].
    + right. left. split; [reflexivity | left; left; reflexivity].
Qed.


End CommandLineFacts.

Section Dictionaries.
Context {F : Type}.

Lemma eq_str_true (v : pyval F) (s : string) :
  eq_str v s = true -> v = VStr s.
Proof.
  destruct v; simpl; try discriminate.
  intros E. apply String.eqb_eq in E. now subst.
Qed.

Lemma lookup_setitem (k : string) (v : pyval F) (d : pydict F) :
  lookup k (setitem k v d) = Some v.
Proof.
  induction d as [|[k' v'] d IH]; simpl.
  - now rewrite String.eqb_refl.
  - destruct (String.eqb k' k) eqn:E; simpl; rewrite E; auto.
Qed.

Lemma setitem_fresh (k : string) (v : pyval F) (d : pydict F) :
  has_key k d = false -> setitem k v d = (d ++ [(k, v)])%list.
Proof.
  unfold has_key, keys.
  induction d as [|[k' v'] d IH]; simpl; auto.
  rewrite String.eqb_sym.
  destruct (String.eqb k' k); simpl; try discriminate.
  intros E. now rewrite IH.
Qed.

Lemma has_key_setitem_other (k k' : string) (v : pyval F) (d : pydict F) :
  String.eqb k k' = false ->
  has_key k (setitem k' v d) = has_key k d.
Proof.
  unfold has_key, keys. intros N.
  induction d as [|[k0 v0] d IH]; simpl.
  - now rewrite N.
  - destruct (String.eqb k0 k') eqn:E; simpl; auto.
    now rewrite IH.
Qed.

Lemma made_app (s : pstate F) (out : list (pydict F)) (l : list (event F)) :
  made s {| stdout := out; calls := calls s ++ l |} = l.
Proof.
  unfold made; simpl.
  rewrite skipn_app, skipn_all, Nat.sub_diag. reflexivity.
Qed.

End Dictionaries.

Section FirstAdapter.
Context {F : Type} `{FloatOps F}.
Variable env : AudioLDM.Env (F := F).

Ltac payload :=
  intros s; py_cases;
  do 2 eexists; (split; [reflexivity|]); (split; [reflexivity|]);
  solve [ left; eexists; reflexivity | right; split; reflexivity ].

Lemma test_environment_returns :
  returns_payload (AudioLDM.test_environment env).
Proof. unfold AudioLDM.test_environment. payload. Qed.

Lemma read_audio_file_returns (file_path : pyval F) :
  returns_payload (AudioLDM.read_audio_file env file_path).
Proof. unfold AudioLDM.read_audio_file. payload. Qed.

Lemma generate_audio_returns (m : AudioLDM.model)
  (prompt output_dir output_name steps guidance_scale batch_size duration
     sample_rate : pyval F) :
  returns_payload
    (AudioLDM.generate_audio env m prompt output_dir output_name steps
       guidance_scale batch_size duration sample_rate).
Proof. unfold AudioLDM.generate_audio. payload. Qed.

Lemma load_model_cases (model_path quantization use_half_precision : pyval F)
  (s : pstate F) :
  (exists m s',
     AudioLDM.load_model env model_path quantization use_half_precision s
     = (Ret m, s') /\ stdout s' = stdout s) \/
  (exists msg s',
     AudioLDM.load_model env model_path quantization use_half_precision s
     = (SysExit 1, s') /\ stdout s' = (stdout s ++ [[("error", VStr msg)]])%list).
Proof.
  unfold AudioLDM.load_model. py_cases.
  all: solve [ left; do 2 eexists; split; reflexivity
             | right; do 2 eexists; split; reflexivity ].
Qed.

Lemma get_dict (d : pydict F) (key : string) (default : pyval F) :
  get (VDict d) key default
  = ret (match lookup key d with Some v => v | None => default end).
Proof. unfold get. now destruct (lookup key d). Qed.


Lemma get_cases (params : pyval F) (key : string) (default : pyval F)
  (s : pstate F) :
  (exists v, get params key default s = (Ret v, s)) \/
  (exists e, get params key default s = (Raise e, s)).
Proof.
  destruct params; simpl; unfold raise; eauto.
  destruct (lookup key d); unfold ret; eauto.
Qed.

Lemma dispatch_cases (args : AudioLDM.Namespace) (params : pyval F)
  (s : pstate F) :
  dispatch_post s (AudioLDM.dispatch env args params s).
Proof.
  unfold AudioLDM.dispatch.
  repeat case_step.
  - destruct (test_environment_returns s) as (d & s' & E & O & P).
    rewrite E. simpl. auto.
  - destruct params as [| | | | | |d|]; try reflexivity.
    rewrite !get_dict. unfold bind, ret. cbn beta iota.
    match goal with
    | |- context [AudioLDM.load_model env ?a ?b ?c s] =>
        destruct (load_model_cases a b c s) as [(m & s' & E & O)|(msg & s' & E & O)];
        rewrite E
    end; simpl.
    + split; auto. right. split; reflexivity.
    + split; eauto.
  - destruct params as [| | | | | |d|]; try reflexivity.
    rewrite !get_dict. unfold bind, ret. cbn beta iota.
    match goal with
    | |- context [AudioLDM.load_model env ?a ?b ?c s] =>
        destruct (load_model_cases a b c s) as [(m & s' & E & O)|(msg & s' & E & O)];
        rewrite E
    end; cbn beta iota.
    + match goal with
      | |- context [AudioLDM.generate_audio env ?m ?a ?b ?c ?d ?e ?f ?g ?h s'] =>
          destruct (generate_audio_returns m a b c d e f g h s')
            as (r & s'' & E' & O' & P); rewrite E'
      end.
      simpl. split; [congruence | assumption].
    + simpl. split; eauto.
  - destruct params as [| | | | | |d|]; try reflexivity.
    rewrite !get_dict. unfold bind, ret. cbn beta iota.
    match goal with
    | |- context [AudioLDM.read_audio_file env ?a s] =>
        destruct (read_audio_file_returns a s) as (r & s' & E & O & P);
        rewrite E
    end.
    simpl. auto.
  - simpl. split; auto. right. split; reflexivity.
Qed.

Lemma stored_operation (argv : AudioLDM.Argv) (seen : AudioLDM.Options)
  (op : string) :
  AudioLDM.opt_operation (stored AudioLDM.store argv seen) = Some op ->
  In (Given AudioLDM.OptOperation op) argv \/
  AudioLDM.opt_operation seen = Some op.
Proof.
  revert seen. induction argv as [|a argv IH]; intros seen E; [now right|].
  destruct a as [|o v|text|]; cbn [stored] in E;
    try (destruct (IH _ E) as [I|I]; [left; right; exact I | now right]).
  destruct (IH _ E) as [I|I]; [left; right; exact I|].
  destruct o; cbn in I; try (now right).
  injection I as ->. left. left. reflexivity.
Qed.


(** Argument parsing prints no JSON; it returns the namespace, or exits
    with status 2, or prints the help and exits with status 0. *)
Lemma parse_args_cases (argv : AudioLDM.Argv) (s : pstate F) :
  (exists op rid p,
     AudioLDM.opt_operation (stored AudioLDM.store argv AudioLDM.no_options)
     = Some op /\
     AudioLDM.opt_request_id (stored AudioLDM.store argv AudioLDM.no_options)
     = Some rid /\
     AudioLDM.opt_params (stored AudioLDM.store argv AudioLDM.no_options)
     = Some p /\
     existsb (String.eqb op) AudioLDM.choices = true /\
     AudioLDM.parse_args argv s
     = (Ret {| AudioLDM.operation := op; AudioLDM.request_id := rid;
               AudioLDM.params := p |}, s)) \/
  (AudioLDM.parse_args argv s = (SysExit 2, s)) \/
  (AudioLDM.parse_args argv s
   = (SysExit 0, {| stdout := stdout s; calls := calls s ++ [EvPrintHelp] |}) /\
   In Help argv).
Proof.
  unfold AudioLDM.parse_args, bind.
  destruct (read_args_cases AudioLDM.valid AudioLDM.store argv
              AudioLDM.no_options [] s)
    as [(E & A & _)|[(E & _)|(E & I)]]; rewrite E.
  - destruct (AudioLDM.opt_operation (stored _ argv _)) as [op|] eqn:Eo;
      [|right; left; reflexivity].
    destruct (AudioLDM.opt_request_id (stored _ argv _)) as [rid|] eqn:Er;
      [|right; left; reflexivity].
    destruct (AudioLDM.opt_params (stored _ argv _)) as [p|] eqn:Ep;
      [|right; left; reflexivity].
    destruct (([] ++ unrecognized argv)%list); [|right; left; reflexivity].
    left. exists op, rid, p. repeat split; auto.
    destruct (stored_operation argv _ op Eo) as [I|I]; [|discriminate].
    exact (A _ _ I).
  - right. left. reflexivity.
  - right. right. split; [reflexivity | exact I].
Qed.

(** The command line that gives each option once is accepted when the
    operation is of the closed set. *)
Lemma parse_command_line (op rid p : string) (s : pstate F) :
  In op AudioLDM.choices ->
  AudioLDM.parse_args (AudioLDM.command_line op rid p) s
  = (Ret {| AudioLDM.operation := op; AudioLDM.request_id := rid;
            AudioLDM.params := p |}, s).
Proof.
  intros I. unfold AudioLDM.parse_args, AudioLDM.command_line, bind.
  cbn [read_args AudioLDM.valid].
  replace (existsb (String.eqb op) AudioLDM.choices) with true; [reflexivity|].
  symmetry. apply existsb_exists. exists op. split; auto.
  apply String.eqb_refl.
Qed.


(** [main] unfolded along the ways its parts end. *)
Lemma main_unfold (argv : AudioLDM.Argv) (s0 : pstate F) :
  AudioLDM.main env argv s0 =
  match AudioLDM.parse_args argv s0 with
  | (Ret args, s) =>
      match AudioLDM.json_loads env (AudioLDM.params args) with
      | inl e => (Raise e, s)
      | inr params =>
          match AudioLDM.dispatch env args params s with
          | (Ret d, s') =>
              (Ret tt,
               {| stdout :=
                    stdout s' ++
                    [setitem "request_id" (VStr (AudioLDM.request_id args)) d];
                  calls := calls s' |})
          | (Raise e, s') =>
              (SysExit 1,
               {| stdout :=
                    stdout s' ++
                    [[("error", VStr e);
                      ("request_id", VStr (AudioLDM.request_id args))]];
                  calls := calls s' |})
          | (SysExit c, s') => (SysExit c, s')
          end
      end
  | (Raise e, s) => (Raise e, s)
  | (SysExit c, s) => (SysExit c, s)
  end.
Proof.
  unfold AudioLDM.main, bind at 1.
  destruct (AudioLDM.parse_args argv s0) as [[args|e|c] s]; try reflexivity.
  unfold bind at 1, lift.
  destruct (AudioLDM.json_loads env (AudioLDM.params args)); try reflexivity.
  unfold try_except, bind.
  destruct (AudioLDM.dispatch env args p s) as [[d|e|c] s']; reflexivity.
Qed.

(** What the parent process sees of a run of the first adapter, by the way
    its [try] block ends. *)
Lemma audioldm_run (argv : AudioLDM.Argv) :
  let o := run (RunAudioLDM env argv) in
  match attempt (RunAudioLDM env argv) with
  | Some r =>
      exists rid, request_id_of (RunAudioLDM env argv) = Some rid /\
      match r with
      | Ret d =>
          printed o = [setitem "request_id" (VStr rid) d] /\
          exit_code o = 0 /\ (error_dict d \/ success_dict d)
      | Raise e =>
          printed o = [[("error", VStr e); ("request_id", VStr rid)]] /\
          exit_code o = 1
      | SysExit c =>
          (exists msg, printed o = [[("error", VStr msg)]]) /\ exit_code o = 1
      end
  | None =>
      printed o = [] /\
      ((exit_code o = 1 \/ exit_code o = 2) /\ called o = [] \/
       exit_code o = 0 /\ called o = [EvPrintHelp])
  end.
Proof.
  intros o. subst o.
  unfold run, attempt, run_process. rewrite main_unfold.
  destruct (parse_args_cases argv start)
    as [(op & rid & p & Eo & Er & Ep & Hop & E) | [E | (E & _)]];
    rewrite E; [|simpl; auto|simpl; auto].
  cbn [AudioLDM.params AudioLDM.request_id request_id_of].
  destruct (AudioLDM.json_loads env p) as [e|params]; [simpl; auto|].
  exists rid. split; [exact Er|].
  pose proof (dispatch_cases
                {| AudioLDM.operation := op; AudioLDM.request_id := rid;
                   AudioLDM.params := p |} params start) as D.
  destruct (AudioLDM.dispatch _ _ params start) as [[d|e|c] s']; simpl in D |- *.
  - destruct D as [O P]. rewrite O. auto.
  - rewrite D. auto.
  - destruct D as (-> & msg & O). rewrite O. eauto.
Qed.

(** A [--params] value that [json.loads] rejects: the exception is raised
    before the [try] of [main], so nothing catches it. *)
Lemma undecodable_params_uncaught (op rid p e : string) :
  In op AudioLDM.choices ->
  AudioLDM.json_loads env p = inl e ->
  run (RunAudioLDM env (AudioLDM.command_line op rid p))
  = {| printed := []; exit_code := 1; called := [] |}.
Proof.
  intros I E. unfold run, run_process.
  rewrite main_unfold, (parse_command_line op rid p start I).
  cbn [AudioLDM.params]. rewrite E. reflexivity.
Qed.

End FirstAdapter.

Section SecondAdapter.
Context {F : Type} `{FloatOps F}.
Variable env : Wav2Vec2.Env (F := F).

(** The [try] block of the second adapter never prints and never exits. *)
Lemma w2v_dispatch_cases (args : Wav2Vec2.Namespace) (s : pstate F) :
  w2v_dispatch_post s (Wav2Vec2.dispatch env args s).
Proof.
  unfold Wav2Vec2.dispatch, Wav2Vec2.load_model, Wav2Vec2.process_audio,
    Wav2Vec2.analyze_audio, Wav2Vec2.prepare_inputs.
  py_cases.
  all: try reflexivity.
  all: split; [reflexivity | split; reflexivity].
Qed.

Lemma w2v_stored_operation (argv : Wav2Vec2.Argv) (seen : Wav2Vec2.Options)
  (op : string) :
  Wav2Vec2.opt_operation (stored Wav2Vec2.store argv seen) = Some op ->
  In (Given Wav2Vec2.OptOperation op) argv \/
  Wav2Vec2.opt_operation seen = Some op.
Proof.
  revert seen. induction argv as [|a argv IH]; intros seen E; [now right|].
  destruct a as [|o v|text|]; cbn [stored] in E;
    try (destruct (IH _ E) as [I|I]; [left; right; exact I | now right]).
  destruct (IH _ E) as [I|I]; [left; right; exact I|].
  destruct o; cbn in I; try (now right).
  injection I as ->. left. left. reflexivity.
Qed.


Lemma w2v_parse_args_cases (argv : Wav2Vec2.Argv) (s : pstate F) :
  (exists op a rid,
     Wav2Vec2.opt_operation (stored Wav2Vec2.store argv Wav2Vec2.no_options)
     = Some op /\
     Wav2Vec2.opt_audio (stored Wav2Vec2.store argv Wav2Vec2.no_options)
     = Some a /\
     Wav2Vec2.opt_request_id (stored Wav2Vec2.store argv Wav2Vec2.no_options)
     = Some rid /\
     existsb (String.eqb op) Wav2Vec2.choices = true /\
     Wav2Vec2.parse_args argv s
     = (Ret {| Wav2Vec2.operation := op; Wav2Vec2.audio := a;
               Wav2Vec2.request_id := rid |}, s)) \/
  (Wav2Vec2.parse_args (F := F) argv s = (SysExit 2, s)) \/
  (Wav2Vec2.parse_args argv s
   = (SysExit 0, {| stdout := stdout s; calls := calls s ++ [EvPrintHelp] |}) /\
   In Help argv).
Proof.
  unfold Wav2Vec2.parse_args, bind.
  destruct (read_args_cases Wav2Vec2.valid Wav2Vec2.store argv
              Wav2Vec2.no_options [] s)
    as [(E & A & _)|[(E & _)|(E & I)]]; rewrite E.
  - destruct (Wav2Vec2.opt_operation (stored _ argv _)) as [op|] eqn:Eo;
      [|right; left; reflexivity].
    destruct (Wav2Vec2.opt_audio (stored _ argv _)) as [a|] eqn:Ea;
      [|right; left; reflexivity].
    destruct (Wav2Vec2.opt_request_id (stored _ argv _)) as [rid|] eqn:Er;
      [|right; left; reflexivity].
    destruct (([] ++ unrecognized argv)%list); [|right; left; reflexivity].
    left. exists op, a, rid. repeat split; auto.
    destruct (w2v_stored_operation argv _ op Eo) as [I|I]; [|discriminate].
    exact (A _ _ I).
  - right. left. reflexivity.
  - right. right. split; [reflexivity | exact I].
Qed.

Lemma w2v_parse_command_line (op a rid : string) (s : pstate F) :
  In op Wav2Vec2.choices ->
  Wav2Vec2.parse_args (Wav2Vec2.command_line op a rid) s
  = (Ret {| Wav2Vec2.operation := op; Wav2Vec2.audio := a;
            Wav2Vec2.request_id := rid |}, s).
Proof.
  intros I. unfold Wav2Vec2.parse_args, Wav2Vec2.command_line, bind.
  cbn [read_args Wav2Vec2.valid].
  replace (existsb (String.eqb op) Wav2Vec2.choices) with true; [reflexivity|].
  symmetry. apply existsb_exists. exists op. split; auto.
  apply String.eqb_refl.
Qed.

Lemma w2v_main_unfold (argv : Wav2Vec2.Argv) (s0 : pstate F) :
  Wav2Vec2.main env argv s0 =
  match Wav2Vec2.parse_args argv s0 with
  | (Ret args, s) =>
      match Wav2Vec2.dispatch env args s with
      | (Ret d, s') =>
          (Ret tt,
           {| stdout :=
                stdout s' ++
                [setitem "request_id" (VStr (Wav2Vec2.request_id args)) d];
              calls := calls s' |})
      | (Raise e, s') =>
          (SysExit 1,
           {| stdout :=
                stdout s' ++
                [[("error", VStr e);
                  ("request_id", VStr (Wav2Vec2.request_id args))]];
              calls := calls s' |})
      | (SysExit c, s') => (SysExit c, s')
      end
  | (Raise e, s) => (Raise e, s)
  | (SysExit c, s) => (SysExit c, s)
  end.
Proof.
  unfold Wav2Vec2.main, bind at 1.
  destruct (Wav2Vec2.parse_args argv s0) as [[args|e|c] s]; try reflexivity.
  unfold try_except, bind.
  destruct (Wav2Vec2.dispatch env args s) as [[d|e|c] s']; reflexivity.
Qed.

(** What the parent process sees of a run of the second adapter. *)
Lemma wav2vec2_run (argv : Wav2Vec2.Argv) :
  let o := run (RunWav2Vec2 env argv) in
  match attempt (RunWav2Vec2 env argv) with
  | Some r =>
      exists rid, request_id_of (RunWav2Vec2 env argv) = Some rid /\
      match r with
      | Ret d =>
          printed o = [setitem "request_id" (VStr rid) d] /\
          exit_code o = 0 /\ success_dict d
      | Raise e =>
          printed o = [[("error", VStr e); ("request_id", VStr rid)]] /\
          exit_code o = 1
      | SysExit c => False
      end
  | None =>
      printed o = [] /\
      (exit_code o = 2 /\ called o = [] \/
       exit_code o = 0 /\ called o = [EvPrintHelp])
  end.
Proof.
  intros o. subst o.
  unfold run, attempt, run_process. rewrite w2v_main_unfold.
  destruct (w2v_parse_args_cases argv start)
    as [(op & a & rid & Eo & Ea & Er & Hop & E) | [E | (E & _)]];
    rewrite E; [|simpl; auto|simpl; auto].
  cbn [Wav2Vec2.request_id request_id_of].
  exists rid. split; [exact Er|].
  pose proof (w2v_dispatch_cases
                {| Wav2Vec2.operation := op; Wav2Vec2.audio := a;
                   Wav2Vec2.request_id := rid |} start) as D.
  destruct (Wav2Vec2.dispatch _ _ start) as [[d|e|c] s']; simpl in D |- *.
  - destruct D as [O P]. rewrite O. auto.
  - rewrite D. auto.
  - assumption.
Qed.

(** Whatever [sf.read] decodes is what the processor is called on: the
    array is not reshaped on the way, whether it has one channel or more. *)
Lemma processor_receives_decoded_audio (audio_path : string)
  (audio : ndarray F) (sample_rate : Z) (s : pstate F) :
  Wav2Vec2.sf_read env audio_path = inr (audio, sample_rate) ->
  In (EvProcessor audio sample_rate)
     (made s (snd (Wav2Vec2.prepare_inputs env audio_path s))).
Proof.
  intros E. unfold Wav2Vec2.prepare_inputs. unfold_py. rewrite E.
  cbn zeta. repeat (case_step; cbn [snd fst stdout calls]).
  all: rewrite <- ?app_assoc, made_app; cbn [app In]; auto.
Qed.

End SecondAdapter.

Section BothAdapters.
Context {F : Type} `{FloatOps F}.

Lemma existsb_eqb_In (op : string) (l : list string) :
  existsb (String.eqb op) l = true <-> In op l.
Proof.
  rewrite existsb_exists. split.
  - intros (x & I & E). apply String.eqb_eq in E. now subst.
  - intros I. exists op. split; auto. apply String.eqb_refl.
Qed.

(** The [try] block is entered only with an operation of the closed set. *)
Lemma attempt_operation (i : invocation (F := F)) (r : outcome (pydict F)) :
  attempt i = Some r ->
  exists op, operation_of i = Some op /\ In op (choices_of i).
Proof.
  destruct i as [env argv|env argv]; unfold attempt.
  - destruct (parse_args_cases argv (start (F := F)))
      as [(op & rid & p & Eo & Er & Ep & Hop & E) | [E | (E & _)]];
      rewrite E; try discriminate.
    intros _. exists op. split; auto. now apply existsb_eqb_In.
  - destruct (w2v_parse_args_cases argv (start (F := F)))
      as [(op & a & rid & Eo & Ea & Er & Hop & E) | [E | (E & _)]];
      rewrite E; try discriminate.
    intros _. exists op. split; auto. now apply existsb_eqb_In.
Qed.



(** Both adapters at once: what is printed and the exit status, by the way
    the [try] block ends. *)
Lemma run_cases (i : invocation (F := F)) :
  match attempt i with
  | Some r =>
      exists rid, request_id_of i = Some rid /\
      match r with
      | Ret d =>
          printed (run i) = [setitem "request_id" (VStr rid) d] /\
          exit_code (run i) = 0 /\ (error_dict d \/ success_dict d)
      | Raise e =>
          printed (run i) = [[("error", VStr e); ("request_id", VStr rid)]] /\
          exit_code (run i) = 1
      | SysExit c =>
          (exists msg, printed (run i) = [[("error", VStr msg)]]) /\
          exit_code (run i) = 1
      end
  | None =>
      printed (run i) = [] /\
      ((exit_code (run i) = 1 \/ exit_code (run i) = 2) /\
       called (run i) = [] \/
       exit_code (run i) = 0 /\ called (run i) = [EvPrintHelp])
  end.
Proof.
  destruct i as [env argv|env argv].
  - apply audioldm_run.
  - pose proof (wav2vec2_run env argv) as R. cbv zeta in R.
    destruct (attempt (RunWav2Vec2 env argv)) as [[d|e|c]|].
    + destruct R as (rid & Hr & P & X & S). exists rid. auto.
    + exact R.
    + destruct R as (rid & _ & []).
    + destruct R as (P & [(X & C)|(X & C)]); auto.
Qed.

Lemma error_dict_tagged (d : pydict F) (rid : string) :
  error_dict d ->
  exists msg,
    setitem "request_id" (VStr rid) d
    = [("error", VStr msg); ("request_id", VStr rid)].
Proof. intros (msg & ->). exists msg. reflexivity. Qed.

Lemma success_dict_tagged (d : pydict F) (v : pyval F) :
  success_dict d -> has_key "error" (setitem "request_id" v d) = false.
Proof.
  intros (E & _). rewrite has_key_setitem_other; auto.
Qed.

Lemma error_dict_not_success (d : pydict F) :
  has_key "error" d = true -> error_dict d \/ success_dict d -> error_dict d.
Proof.
  intros K [E|(S & _)]; auto. congruence.
Qed.

(** C8. For every valid operation name in either adapter, a successful run
    -- one whose [try] block in [main] yields its result -- exits with
    status 0 and prints exactly one JSON object on standard output, and that
    object has a [request_id] field equal to the [--request-id] argument. *)
Theorem successful_run_echoes_request_id
  (i : invocation (F := F)) (result : pydict F) :
  attempt i = Some (Ret result) ->
  exists op rid d,
    operation_of i = Some op /\ In op (choices_of i) /\
    request_id_of i = Some rid /\
    exit_code (run i) = 0 /\
    printed (run i) = [d] /\
    lookup "request_id" d = Some (VStr rid).
Proof.
  intros A. pose proof (run_cases i) as R. rewrite A in R.
  destruct (attempt_operation i _ A) as (op & Hop & Hin).
  destruct R as (rid & Hr & P & X & _).
  exists op, rid, (setitem "request_id" (VStr rid) result).
  repeat split; auto. apply lookup_setitem.
Qed.


(** C10, as amended.  For every invocation of either adapter, a printed
    object with an [error] key has no other key than [error] and
    [request_id], so it never carries success fields; and when a failure is
    reported through the result or through the [except] clause of [main]
    (the [try] block yields an error result or raises: every failure but
    one inside [load_model] of the first adapter), the printed object has
    exactly the keys [error] and [request_id]. *)
Theorem error_object_has_no_success_fields (i : invocation (F := F)) :
  (forall d, In d (printed (run i)) -> has_key "error" d = true ->
     forall k, In k (keys d) -> k = "error" \/ k = "request_id") /\
  (forall r, attempt i = Some r -> reports_failure r ->
     exists msg rid,
       request_id_of i = Some rid /\
       printed (run i) = [[("error", VStr msg); ("request_id", VStr rid)]] /\
       forall d, In d (printed (run i)) -> keys d = ["error"; "request_id"]).
Proof.
  pose proof (run_cases i) as R. split.
  - intros d I K k Ik.
    destruct (attempt i) as [[d0|e|c]|].
    + destruct R as (rid & _ & P & _ & S). rewrite P in I.
      destruct I as [<-|[]].
      destruct S as [S|S].
      * destruct (error_dict_tagged d0 rid S) as (msg & E). rewrite E in Ik.
        simpl in Ik. intuition.
      * rewrite (success_dict_tagged d0 _ S) in K. discriminate.
    + destruct R as (rid & _ & P & _). rewrite P in I.
      destruct I as [<-|[]]. simpl in Ik. intuition.
    + destruct R as (rid & _ & (msg & P) & _). rewrite P in I.
      destruct I as [<-|[]]. simpl in Ik. intuition.
    + destruct R as (P & _). rewrite P in I. destruct I.
  - intros r A Fl. rewrite A in R. destruct R as (rid & Hr & R).
    destruct r as [d|e|c]; simpl in Fl.
    + destruct R as (P & _ & S).
      destruct (error_dict_tagged d rid (error_dict_not_success d Fl S)) as (msg & E).
      exists msg, rid. rewrite P, E. repeat split; auto.
      intros d' [<-|[]]. reflexivity.
    + destruct R as (P & _). exists e, rid. rewrite P. repeat split; auto.
      intros d' [<-|[]]. reflexivity.
    + destruct Fl.
Qed.



End BothAdapters.

Section Handlers.
Context {F : Type} `{FloatOps F}.

(** C5. For every call to the first adapter's model loader, [model.half()]
    is called only when half precision is requested (the argument is
    truthy), quantization is ['none'] and CUDA is available; and whenever it
    is called no quantization configuration was built or passed to the
    model, so the two reductions are never both applied. *)
Theorem half_precision_only_unquantized_on_cuda
  (env : AudioLDM.Env (F := F))
  (model_path quantization use_half_precision : pyval F) (s : pstate F) :
  let after :=
    snd (AudioLDM.load_model env model_path quantization use_half_precision s)
  in
  In EvHalf (made s after) ->
  truthy use_half_precision = true /\
  quantization = VStr "none" /\
  AudioLDM.cuda_is_available env = true /\
  (forall c, ~ In (EvBitsAndBytesConfig c) (made s after)) /\
  (forall p d q, In (EvAudioLDM p d q) (made s after) -> q = None).
Proof.
  unfold AudioLDM.load_model. py_cases.
  all: rewrite <- ?app_assoc, ?made_app; cbn [app In]; intros Hin.
  all: try (exfalso; intuition discriminate).
  all: repeat match goal with
         | E : (_ && _)%bool = true |- _ => apply andb_prop in E; destruct E
         | E : eq_str _ _ = true |- _ => apply eq_str_true in E
         end; subst; try discriminate.
  all: repeat split; auto; try (intros c [E|E]; intuition discriminate).
  all: try (intros p d q E; intuition (try discriminate; congruence)).
Qed.

(** C6. For every 2-channel input of N frames at sample rate R, read-audio
    returns a mono signal of N samples, each the (float32) mean of the
    channels of its frame, and reports the duration N / R. *)
Theorem read_audio_downmixes_stereo
  (env : AudioLDM.Env (F := F)) (file_path : pyval F)
  (frames : list (list F)) (R : Z) (s : pstate F) :
  AudioLDM.sf_read env file_path = inr (Arr2 2 frames, R) ->
  0 < R ->
  exists mono s',
    AudioLDM.read_audio_file env file_path s
    = (Ret [("audio_data", VNpyB64 (Arr1 mono));
            ("sample_rate", VInt R);
            ("duration",
             VFloat (int_truediv (Z.of_nat (List.length frames)) R))], s') /\
    List.length mono = List.length frames /\
    forall n frame,
      nth_error frames n = Some frame ->
      nth_error mono n = Some (astype_float32 (np_mean frame)).
Proof.
  intros E Rpos.
  exists (map astype_float32 (map np_mean frames)).
  unfold AudioLDM.read_audio_file. unfold_py. rewrite E.
  cbn -[Z.of_nat]. unfold AudioLDM.truediv.
  destruct (R =? 0) eqn:Z0; [apply Z.eqb_eq in Z0; lia|].
  rewrite !length_map. eexists. split; [reflexivity|]. split; [reflexivity|].
  intros n frame N. rewrite !nth_error_map, N. reflexivity.
Qed.

(** C7. For every audio input whose pooled feature vector has more than 20
    values, analyze returns a [features] list of exactly 20 values, the
    first 20 of the vector, and a [feature_count] equal to the length of the
    whole vector. *)
Theorem analyze_truncates_to_20
  (env : Wav2Vec2.Env (F := F)) (audio_path : string)
  (model : Wav2Vec2.model) (processor : unit) (s s1 : pstate F)
  (inputs : Wav2Vec2.inputs) (feature_list : list F)
  (others : list (list F)) :
  Wav2Vec2.prepare_inputs env audio_path s = (Ret inputs, s1) ->
  Wav2Vec2.forward env model inputs true = inr tt ->
  Wav2Vec2.pooled_hidden_state env model inputs
  = inr (feature_list :: others) ->
  (20 < List.length feature_list)%nat ->
  exists features s',
    Wav2Vec2.analyze_audio env audio_path model processor s
    = (Ret [("features", VList (map VFloat features));
            ("feature_count", VInt (Z.of_nat (List.length feature_list)))],
       s') /\
    List.length features = 20%nat /\
    features = firstn 20 feature_list.
Proof.
  intros P Fw Ph L.
  exists (firstn 20 feature_list).
  unfold Wav2Vec2.analyze_audio. unfold bind at 1. rewrite P.
  unfold_py. rewrite Fw, Ph. cbn -[Z.of_nat firstn].
  eexists. split; [reflexivity|]. split; [|reflexivity].
  rewrite length_firstn. lia.
Qed.

End Handlers.

(** ** The theorems at concrete runs *)

Section ConcreteRuns.
Import Rational.





(** C3: the code at a [--params] value that is not JSON.  [json.loads]
    raises before the [try] of [main] is entered: nothing is printed on
    standard output, no library is called, and the uncaught exception ends
    the process with status 1. *)
Theorem malformed_params_print_nothing :
  run (RunAudioLDM
         (audioldm_env
            (inl "Expecting property name enclosed in double quotes: line 1 column 2 (char 1)")
            true (inr tt) one_waveform no_such_file)
         (audioldm_argv "test-env" "r1" "{"))
  = {| printed := []; exit_code := 1; called := [] |}.
Proof. reflexivity. Qed.

(** C4: the code at a 2-channel file.  Both handlers of the second adapter
    hand the array of [sf.read] to the processor as it is, two channels
    wide, where [read_audio_file] of the first adapter averages the same
    frames to one channel. *)
Theorem stereo_reaches_processor_unmixed :
  let env := wav2vec2_env (inr (stereo, 16000)) [pooled24] in
  In (EvProcessor stereo 16000)
     (called (run (RunWav2Vec2 env (wav2vec2_argv "process" "r2")))) /\
  In (EvProcessor stereo 16000)
     (called (run (RunWav2Vec2 env (wav2vec2_argv "analyze" "r2")))) /\
  shape stereo = [2; 2]%nat /\
  forall s,
    fst (AudioLDM.read_audio_file
           (audioldm_env (inr (VDict [])) true (inr tt) one_waveform
              (inr (stereo, 16000)))
           (VStr "clip.wav") s)
    = Ret [("audio_data", VNpyB64 (Arr1 [2; 3]%Q));
           ("sample_rate", VInt 16000);
           ("duration", VFloat (1 # 8000))].
Proof.
  cbv zeta. split; [|split; [|split]].
  - vm_compute. tauto.
  - vm_compute. tauto.
  - reflexivity.
  - intros s. reflexivity.
Qed.

Lemma half_precision_witness :
  let env :=
    audioldm_env (inr (VDict [])) true (inr tt) one_waveform no_such_file in
  let after :=
    snd (AudioLDM.load_model env (VStr "latent-diffusion/audioldm-s-full")
           (VStr "none") (VBool true) start) in
  In EvHalf (made start after) /\
  AudioLDM.cuda_is_available env = true /\
  (forall p d q, In (EvAudioLDM p d q) (made start after) -> q = None).
Proof.
  cbv zeta.
  assert (I : In EvHalf
                (made start
                   (snd (AudioLDM.load_model
                           (audioldm_env (inr (VDict [])) true (inr tt)
                              one_waveform no_such_file)
                           (VStr "latent-diffusion/audioldm-s-full")
                           (VStr "none") (VBool true) start)))).
  { vm_compute. tauto. }
  split; [exact I|].
  destruct (half_precision_only_unquantized_on_cuda
              (audioldm_env (inr (VDict [])) true (inr tt) one_waveform
                 no_such_file)
              (VStr "latent-diffusion/audioldm-s-full") (VStr "none")
              (VBool true) start I) as (_ & _ & C & _ & Q0).
  split; [exact C | exact Q0].
Defined.

Lemma read_audio_downmixes_stereo_witness :
  exists mono s',
    AudioLDM.read_audio_file
      (audioldm_env (inr (VDict [])) true (inr tt) one_waveform
         (inr (stereo, 2)))
      (VStr "clip.wav") start
    = (Ret [("audio_data", VNpyB64 (Arr1 mono));
            ("sample_rate", VInt 2);
            ("duration", VFloat 1%Q)], s') /\
    List.length mono = 2%nat /\
    forall n frame,
      nth_error [[1; 3]; [2; 4]]%Q n = Some frame ->
      nth_error mono n = Some (astype_float32 (np_mean frame)).
Proof.
  exact (read_audio_downmixes_stereo
           (audioldm_env (inr (VDict [])) true (inr tt) one_waveform
              (inr (stereo, 2)))
           (VStr "clip.wav") [[1; 3]; [2; 4]]%Q 2 start eq_refl eq_refl).
Defined.

Lemma analyze_truncates_to_20_witness :
  exists features s',
    Wav2Vec2.analyze_audio
      (wav2vec2_env (inr (stereo, 16000)) [pooled24]) "clip.wav"
      {| Wav2Vec2.model_name := "facebook/wav2vec2-base-960h";
         Wav2Vec2.on_cuda := false |} tt start
    = (Ret [("features", VList (map VFloat features));
            ("feature_count", VInt 24)], s') /\
    List.length features = 20%nat /\
    features = firstn 20 pooled24.
Proof.
  refine (analyze_truncates_to_20
            (wav2vec2_env (inr (stereo, 16000)) [pooled24]) "clip.wav"
            {| Wav2Vec2.model_name := "facebook/wav2vec2-base-960h";
               Wav2Vec2.on_cuda := false |} tt start
            {| stdout := [];
               calls := [EvSfRead (VStr "clip.wav");
                         EvProcessor stereo 16000] |}
            {| Wav2Vec2.input_audio := stereo;
               Wav2Vec2.input_rate := 16000;
               Wav2Vec2.inputs_on_cuda := false |}
            pooled24 [] eq_refl eq_refl eq_refl _).
  vm_compute. lia.
Defined.

Lemma successful_run_echoes_request_id_witness :
  let i :=
    RunWav2Vec2 (wav2vec2_env (inr (stereo, 16000)) [pooled24])
      (wav2vec2_argv "process" "r2") in
  attempt i
  = Some (Ret [("transcription", VStr "HELLO"); ("confidence", VFloat 12%Q)]) /\
  exists op rid d,
    operation_of i = Some op /\ In op (choices_of i) /\
    request_id_of i = Some rid /\
    exit_code (run i) = 0 /\
    printed (run i) = [d] /\
    lookup "request_id" d = Some (VStr rid).
Proof.
  cbv zeta. split; [reflexivity|].
  exact (successful_run_echoes_request_id
           (RunWav2Vec2 (wav2vec2_env (inr (stereo, 16000)) [pooled24])
              (wav2vec2_argv "process" "r2"))
           [("transcription", VStr "HELLO"); ("confidence", VFloat 12%Q)]
           eq_refl).
Defined.



(** C10 fails as stated.  When the model constructor raises in a load-model
    run, [load_model] prints its own error object and exits: the object has
    the key [error] alone, not [error] and [request_id]. *)
Lemma loader_failure_prints_error_only :
  let i :=
    RunAudioLDM
      (audioldm_env (inr (VDict [])) true (inl "model not found")
         one_waveform no_such_file)
      (audioldm_argv "load-model" "r1" "{}") in
  attempt i = Some (SysExit 1) /\
  printed (run i) = [[("error", VStr "model not found")]] /\
  forall d, In d (printed (run i)) ->
            keys d = ["error"] /\ keys d <> ["error"; "request_id"].
Proof.
  cbv zeta. split; [reflexivity|]. split; [reflexivity|].
  intros d [<-|[]]. split; [reflexivity | discriminate].
Qed.

Lemma error_object_witness :
  let i :=
    RunAudioLDM
      (audioldm_env (inr (VDict [])) true (inr tt) one_waveform no_such_file)
      (audioldm_argv "read-audio" "r1" "{}") in
  attempt i = Some (Ret [("error", VStr "Error opening '': System error.")]) /\
  exists msg rid,
    request_id_of i = Some rid /\
    printed (run i) = [[("error", VStr msg); ("request_id", VStr rid)]] /\
    forall d, In d (printed (run i)) -> keys d = ["error"; "request_id"].
Proof.
  cbv zeta. split; [reflexivity|].
  exact (proj2
           (error_object_has_no_success_fields
              (RunAudioLDM
                 (audioldm_env (inr (VDict [])) true (inr tt) one_waveform
                    no_such_file)
                 (audioldm_argv "read-audio" "r1" "{}")))
           (Ret [("error", VStr "Error opening '': System error.")])
           eq_refl eq_refl).
Defined.

End ConcreteRuns.

(** * Further properties of the two scripts *)

Section Traces.
Context {F : Type}.

Lemma made_refl (s : pstate F) : made s s = [].
Proof. unfold made. apply skipn_all. Qed.

Lemma made_same (s : pstate F) (out : list (pydict F)) :
  made s {| stdout := out; calls := calls s |} = [].
Proof. unfold made. simpl. apply skipn_all. Qed.

End Traces.

Ltac traces :=
  rewrite <- ?app_assoc, ?made_app, ?made_refl, ?made_same; cbn [app In].

Section FirstAdapterRuns.
Context {F : Type} `{FloatOps F}.
Variable env : AudioLDM.Env (F := F).

Lemma get_dict_or (d : pydict F) (key : string) (default : pyval F) :
  get (VDict d) key default = ret (get_or d key default).
Proof. apply get_dict. Qed.

(** A run of the first adapter whose command line is accepted and whose
    [--params] value decodes, in terms of its [try] block. *)
Lemma audioldm_run_eq (op rid p : string) (params : pyval F) :
  In op AudioLDM.choices ->
  AudioLDM.json_loads env p = inr params ->
  run (RunAudioLDM env (Rational.audioldm_argv op rid p)) =
  match
    AudioLDM.dispatch env
      {| AudioLDM.operation := op; AudioLDM.request_id := rid;
         AudioLDM.params := p |} params start
  with
  | (Ret d, s') =>
      {| printed := stdout s' ++ [setitem "request_id" (VStr rid) d];
         exit_code := 0; called := calls s' |}
  | (Raise e, s') =>
      {| printed := stdout s' ++ [[("error", VStr e); ("request_id", VStr rid)]];
         exit_code := 1; called := calls s' |}
  | (SysExit c, s') =>
      {| printed := stdout s'; exit_code := c; called := calls s' |}
  end.
Proof.
  intros I E. unfold run, run_process, Rational.audioldm_argv.
  rewrite main_unfold, (parse_command_line op rid p start I).
  cbn [AudioLDM.params AudioLDM.request_id]. rewrite E.
  destruct (AudioLDM.dispatch _ _ params start) as [[d|e|c] s']; reflexivity.
Qed.

(** X1. A [--params] value that is valid JSON but not an object: [test-env]
    never looks at it and runs as usual, while the three other operations
    stop at their first [params.get], print the attribute error with the
    request id, exit with status 1 and have called no library. *)
Theorem non_object_params (op rid p : string) (params : pyval F) :
  In op AudioLDM.choices ->
  AudioLDM.json_loads env p = inr params ->
  (forall d, params <> VDict d) ->
  let o := run (RunAudioLDM env (Rational.audioldm_argv op rid p)) in
  if String.eqb op "test-env" then
    exit_code o = 0 /\
    exists d, printed o = [d] /\ lookup "request_id" d = Some (VStr rid)
  else
    printed o
    = [[("error",
         VStr ("'" ++ type_name params ++ "' object has no attribute 'get'"));
        ("request_id", VStr rid)]] /\
    exit_code o = 1 /\ called o = [].
Proof.
  intros I E N o. subst o. rewrite (audioldm_run_eq op rid p params I E).
  simpl in I. destruct I as [<-|[<-|[<-|[<-|[]]]]]; cbn [String.eqb Ascii.eqb Bool.eqb].
  - unfold AudioLDM.dispatch. cbn [AudioLDM.operation String.eqb Ascii.eqb Bool.eqb].
    destruct (test_environment_returns env start) as (d & s' & T & O & P).
    rewrite T. cbn [exit_code printed]. split; auto.
    rewrite O. eexists. split; [reflexivity|]. apply lookup_setitem.
  - destruct params; try (repeat split; reflexivity). now destruct (N d).
  - destruct params; try (repeat split; reflexivity). now destruct (N d).
  - destruct params; try (repeat split; reflexivity). now destruct (N d).
Qed.

Lemma audioldm_called_eq (op rid p : string) (params : pyval F) :
  In op AudioLDM.choices ->
  AudioLDM.json_loads env p = inr params ->
  called (run (RunAudioLDM env (Rational.audioldm_argv op rid p)))
  = calls (snd (AudioLDM.dispatch env
                  {| AudioLDM.operation := op; AudioLDM.request_id := rid;
                     AudioLDM.params := p |} params start)).
Proof.
  intros I E. rewrite (audioldm_run_eq op rid p params I E).
  destruct (AudioLDM.dispatch _ _ params start) as [[d|e|c] s']; reflexivity.
Qed.

(** The [generate] branch of the dispatcher on a params object. *)
Lemma dispatch_generate (rid p : string) (d : pydict F) (s : pstate F) :
  AudioLDM.dispatch env
    {| AudioLDM.operation := "generate"; AudioLDM.request_id := rid;
       AudioLDM.params := p |} (VDict d) s
  = match
      AudioLDM.load_model env
        (get_or d "model_path" (VStr "latent-diffusion/audioldm-s-full"))
        (get_or d "quantization" (VStr "8bit"))
        (get_or d "use_half_precision" (VBool true)) s
    with
    | (Ret model, s1) =>
        AudioLDM.generate_audio env model
          (get_or d "prompt" (VStr ""))
          (get_or d "output_dir" (VStr "./output"))
          (get_or d "output_name" (VStr "audio"))
          (get_or d "steps" (VInt 25))
          (get_or d "guidance_scale" (VFloat (float_literal (7 # 2))))
          (get_or d "batch_size" (VInt 1))
          (get_or d "duration" (VFloat (float_literal (5 # 1))))
          (get_or d "sample_rate" (VInt 16000)) s1
    | (Raise e, s1) => (Raise e, s1)
    | (SysExit c, s1) => (SysExit c, s1)
    end.
Proof.
  unfold AudioLDM.dispatch.
  cbn [AudioLDM.operation String.eqb Ascii.eqb Bool.eqb].
  rewrite !get_dict_or. unfold bind, ret. cbn beta iota.
  destruct (AudioLDM.load_model env _ _ _ s) as [[m|e|c] s1]; reflexivity.
Qed.

(** The [load-model] branch of the dispatcher on a params object. *)
Lemma dispatch_load_model (rid p : string) (d : pydict F) (s : pstate F) :
  AudioLDM.dispatch env
    {| AudioLDM.operation := "load-model"; AudioLDM.request_id := rid;
       AudioLDM.params := p |} (VDict d) s
  = match
      AudioLDM.load_model env
        (get_or d "model_path" (VStr "latent-diffusion/audioldm-s-full"))
        (get_or d "quantization" (VStr "8bit"))
        (get_or d "use_half_precision" (VBool true)) s
    with
    | (Ret model, s1) => (Ret [("status", VStr "Model loaded successfully")], s1)
    | (Raise e, s1) => (Raise e, s1)
    | (SysExit c, s1) => (SysExit c, s1)
    end.
Proof.
  unfold AudioLDM.dispatch.
  cbn [AudioLDM.operation String.eqb Ascii.eqb Bool.eqb].
  rewrite !get_dict_or. unfold bind, ret. cbn beta iota.
  destruct (AudioLDM.load_model env _ _ _ s) as [[m|e|c] s1]; reflexivity.
Qed.

End FirstAdapterRuns.

Section Loader.
Context {F : Type} `{FloatOps F}.
Variable env : AudioLDM.Env (F := F).

Lemma eq_str_false (v : pyval F) (s : string) :
  v <> VStr s -> eq_str v s = false.
Proof.
  intros N. destruct (eq_str v s) eqn:E; auto.
  apply eq_str_true in E. contradiction.
Qed.

(** X2. The model that [load_model] returns is the one that was asked for:
    the constructor is called on the given path, on ["cuda"] when an
    accelerator is available and on ["cpu"] otherwise, with the
    configuration that the value of [quantization] selects; the handle is
    half precision exactly when [model.half()] was called. *)
Theorem loaded_model_is_as_requested
  (model_path quantization use_half_precision : pyval F)
  (s s' : pstate F) (m : AudioLDM.model) :
  AudioLDM.load_model env model_path quantization use_half_precision s
  = (Ret m, s') ->
  let dev := if AudioLDM.cuda_is_available env then "cuda" else "cpu" in
  In (EvAudioLDM model_path dev (config_for quantization)) (made s s') /\
  (forall p d c, In (EvAudioLDM p d c) (made s s') ->
                 p = model_path /\ d = dev /\ c = config_for quantization) /\
  AudioLDM.model_path m = model_path /\
  AudioLDM.device m = dev /\
  AudioLDM.quantization_config m = config_for quantization /\
  (AudioLDM.half_precision m = true <-> In EvHalf (made s s')).
Proof.
  unfold AudioLDM.load_model, config_for. py_cases.
  all: intros E; inversion E; subst; clear E.
  all: traces.
  all: cbn [AudioLDM.model_path AudioLDM.device AudioLDM.quantization_config
            AudioLDM.half_precision].
  all: repeat split; auto.
  all: try (intros ? ? ? ?; intuition congruence).
  all: try (intros ?; intuition congruence).
  all: try (intuition congruence).
Qed.

(** X3. A value of [quantization] other than ['8bit'], ['4bit'] and
    ['none'] is not rejected: [load_model] goes straight to the
    constructor, called unquantized as its first call, builds no
    quantization configuration and does not call [model.half()]; whenever
    the constructor (and gradient checkpointing, where the model has it)
    succeeds, the model is returned, unquantized and in full precision. *)
Theorem unknown_quantization_loads_full_precision
  (model_path quantization use_half_precision : pyval F) (s : pstate F) :
  quantization <> VStr "8bit" ->
  quantization <> VStr "4bit" ->
  quantization <> VStr "none" ->
  let r :=
    AudioLDM.load_model env model_path quantization use_half_precision s in
  let dev := if AudioLDM.cuda_is_available env then "cuda" else "cpu" in
  let plain :=
    {| AudioLDM.model_path := model_path; AudioLDM.device := dev;
       AudioLDM.quantization_config := None;
       AudioLDM.half_precision := false |} in
  (exists rest,
     made s (snd r) = EvAudioLDM model_path dev None :: rest /\
     (rest = [] \/ rest = [EvGradientCheckpointing])) /\
  (AudioLDM.AudioLDM_init env model_path dev None = inr tt ->
   (AudioLDM.hasattr_gradient_checkpointing env plain = true ->
    AudioLDM.enable_gradient_checkpointing env plain = inr tt) ->
   fst r = Ret plain) /\
  (forall e, In e (made s (snd r)) ->
             e = EvAudioLDM model_path dev None \/ e = EvGradientCheckpointing) /\
  (forall m, fst r = Ret m ->
             AudioLDM.quantization_config m = None /\
             AudioLDM.half_precision m = false).
Proof.
  intros N8 N4 Nn.
  apply eq_str_false in N8. apply eq_str_false in N4. apply eq_str_false in Nn.
  unfold AudioLDM.load_model. rewrite N8, N4, Nn, andb_false_r.
  cbn [andb]. py_cases.
  all: traces; cbn [fst].
  all: split; [eexists; split; [reflexivity | auto] |].
  all: split; [intros I G; try discriminate I;
               try (specialize (G eq_refl); discriminate G);
               try reflexivity |].
  all: split; [intros e I; intuition | intros m E; inversion E; auto].
Qed.

(** The calls [load_model] makes are its own. *)
Lemma load_model_calls
  (model_path quantization use_half_precision : pyval F) (s : pstate F) :
  exists l,
    calls (snd (AudioLDM.load_model env model_path quantization
                  use_half_precision s)) = (calls s ++ l)%list /\
    forallb loader_event l = true.
Proof.
  unfold AudioLDM.load_model. py_cases.
  all: rewrite <- ?app_assoc.
  all: solve [ eexists; split; reflexivity
             | exists []; rewrite app_nil_r; split; reflexivity ].
Qed.

(** With the default ['8bit'] the 8-bit configuration is built first, and
    [model.half()] is not called. *)
Lemma load_model_8bit_calls
  (model_path use_half_precision : pyval F) (s : pstate F) :
  exists l,
    calls (snd (AudioLDM.load_model env model_path (VStr "8bit")
                  use_half_precision s))
    = (calls s ++ EvBitsAndBytesConfig LoadIn8bit :: l)%list /\
    ~ In EvHalf l /\ forallb loader_event l = true.
Proof.
  unfold AudioLDM.load_model.
  cbn [eq_str String.eqb Ascii.eqb Bool.eqb]. rewrite andb_false_r.
  cbn [andb]. py_cases.
  all: rewrite <- ?app_assoc; cbn [app].
  all: eexists; split; [reflexivity|]; split; [|reflexivity].
  all: cbn [In]; intuition discriminate.
Qed.

End Loader.

Section Handlers1.
Context {F : Type} `{FloatOps F}.
Variable env : AudioLDM.Env (F := F).

(** X4. When [generate_audio] reports a [path], the file was written: the
    result is exactly [{path, sample_rate, duration}], where [path] is
    [output_dir] joined with [output_name + ".wav"], and [sf.write] was
    called on that path with the first waveform of the generated batch and
    the reported sample rate; [sample_rate] and [duration] are the values
    that were passed in, not measured on the waveform. *)
Theorem reported_file_is_the_written_file (model : AudioLDM.model)
  (prompt output_dir output_name steps guidance_scale batch_size duration
     sample_rate : pyval F) (s s' : pstate F) (d : pydict F) :
  AudioLDM.generate_audio env model prompt output_dir output_name steps
    guidance_scale batch_size duration sample_rate s = (Ret d, s') ->
  has_key "path" d = true ->
  exists path waveform others,
    d = [("path", VStr path); ("sample_rate", sample_rate);
         ("duration", duration)] /\
    AudioLDM.os_path_join output_dir
      (AudioLDM.format env output_name ++ ".wav") = inr path /\
    AudioLDM.generate env model prompt guidance_scale steps duration
      batch_size = inr (waveform :: others) /\
    AudioLDM.sf_write env path waveform sample_rate = inr tt /\
    In (EvSfWrite path waveform sample_rate) (made s s').
Proof.
  unfold AudioLDM.generate_audio, AudioLDM.item0. py_cases.
  all: intros E K; inversion E; subst; clear E; try discriminate K.
  traces.
  match goal with u : unit |- _ => destruct u end.
  do 3 eexists. repeat split; eauto.
Qed.

(** X5. When [model.generate] raises, [generate_audio] returns an error
    dictionary and [sf.write] is never called: no file is written.  The
    output directory has been asked for before, as the first call. *)
Theorem failed_generation_writes_no_file (model : AudioLDM.model)
  (prompt output_dir output_name steps guidance_scale batch_size duration
     sample_rate : pyval F) (s : pstate F) (e : string) :
  AudioLDM.generate env model prompt guidance_scale steps duration batch_size
  = inl e ->
  let r :=
    AudioLDM.generate_audio env model prompt output_dir output_name steps
      guidance_scale batch_size duration sample_rate s in
  (exists msg, fst r = Ret [("error", VStr msg)]) /\
  (forall path data rate, ~ In (EvSfWrite path data rate) (made s (snd r))) /\
  (exists rest, made s (snd r) = EvMakedirs output_dir :: rest).
Proof.
  intros G. unfold AudioLDM.generate_audio. unfold_py. rewrite G. cbn zeta.
  repeat (case_step; cbn [snd fst stdout calls]).
  all: traces.
  all: split; [eexists; reflexivity |].
  all: split; [intros ? ? ? I; intuition discriminate | eexists; reflexivity].
Qed.

(** The calls [generate_audio] makes are its own. *)
Lemma generate_audio_calls (model : AudioLDM.model)
  (prompt output_dir output_name steps guidance_scale batch_size duration
     sample_rate : pyval F) (s : pstate F) :
  exists l,
    calls (snd (AudioLDM.generate_audio env model prompt output_dir
                  output_name steps guidance_scale batch_size duration
                  sample_rate s)) = (calls s ++ l)%list /\
    forallb generation_event l = true.
Proof.
  unfold AudioLDM.generate_audio. py_cases.
  all: rewrite <- ?app_assoc.
  all: solve [ eexists; split; reflexivity
             | exists []; rewrite app_nil_r; split; reflexivity ].
Qed.

(** X6. A mono file is passed through: [read_audio_file] takes no mean, the
    samples are those of the file cast to float32, one per frame, and the
    duration is the frame count over the sample rate.  An empty file gives
    an empty signal of duration [0 / R]. *)
Theorem read_audio_keeps_mono
  (file_path : pyval F) (samples : list F) (R : Z) (s : pstate F) :
  AudioLDM.sf_read env file_path = inr (Arr1 samples, R) ->
  0 < R ->
  AudioLDM.read_audio_file env file_path s
  = (Ret [("audio_data", VNpyB64 (Arr1 (map astype_float32 samples)));
          ("sample_rate", VInt R);
          ("duration",
           VFloat (int_truediv (Z.of_nat (List.length samples)) R))],
     {| stdout := stdout s; calls := calls s ++ [EvSfRead file_path] |}).
Proof.
  intros E Rpos. unfold AudioLDM.read_audio_file. unfold_py. rewrite E.
  cbn -[Z.of_nat]. unfold AudioLDM.truediv.
  destruct (R =? 0) eqn:Z0; [apply Z.eqb_eq in Z0; lia|].
  rewrite length_map. reflexivity.
Qed.

(** X7. Without an accelerator the environment probe touches no device:
    whatever the [--params] object holds, a test-env run calls no library,
    prints status ["ok"] with an empty [gpu_info] and exits with status 0. *)
Theorem test_env_without_cuda (rid p : string) (params : pyval F) :
  AudioLDM.json_loads env p = inr params ->
  AudioLDM.cuda_is_available env = false ->
  run (RunAudioLDM env (Rational.audioldm_argv "test-env" rid p))
  = {| printed :=
         [[("status", VStr "ok");
           ("python_version", VStr (AudioLDM.sys_version env));
           ("pytorch_version", VStr (AudioLDM.torch_version env));
           ("cuda_available", VBool false);
           ("gpu_info", VDict []);
           ("request_id", VStr rid)]];
       exit_code := 0;
       called := [] |}.
Proof.
  intros E C.
  rewrite (audioldm_run_eq env "test-env" rid p params); auto.
  - unfold AudioLDM.dispatch, AudioLDM.test_environment.
    cbn [AudioLDM.operation String.eqb Ascii.eqb Bool.eqb].
    unfold_py. rewrite C. reflexivity.
  - simpl. auto.
Qed.

End Handlers1.

Section LoadingRuns.
Context {F : Type} `{FloatOps F}.
Variable env : AudioLDM.Env (F := F).

Lemma forallb_not_in (f : event F -> bool) (l : list (event F)) (e : event F) :
  forallb f l = true -> f e = false -> ~ In e l.
Proof.
  intros A N I. rewrite forallb_forall in A. apply A in I. congruence.
Qed.

(** X8. The defaults exclude half precision.  When the params object has no
    [quantization] key, [load-model] and [generate] load the model with the
    default ['8bit']: the first library call builds the 8-bit
    configuration, and [model.half()] is never called, although
    [use_half_precision] defaults to [True]. *)
Theorem default_quantization_excludes_half_precision
  (op rid p : string) (d : pydict F) :
  op = "load-model" \/ op = "generate" ->
  AudioLDM.json_loads env p = inr (VDict d) ->
  lookup "quantization" d = None ->
  let o := run (RunAudioLDM env (Rational.audioldm_argv op rid p)) in
  (exists rest, called o = EvBitsAndBytesConfig LoadIn8bit :: rest) /\
  ~ In EvHalf (called o).
Proof.
  intros Op E Q o. subst o.
  assert (I : In op AudioLDM.choices) by (destruct Op; subst; simpl; auto).
  rewrite (audioldm_called_eq env op rid p (VDict d) I E).
  assert (D : get_or d "quantization" (VStr "8bit") = VStr "8bit").
  { unfold get_or. now rewrite Q. }
  destruct (load_model_8bit_calls env
              (get_or d "model_path" (VStr "latent-diffusion/audioldm-s-full"))
              (get_or d "use_half_precision" (VBool true)) start)
    as (l & C & NH & L).
  destruct Op as [-> | ->].
  - rewrite dispatch_load_model, D.
    destruct (AudioLDM.load_model env _ _ _ start) as [[m|e|c] s1];
      cbn [snd] in C |- *; rewrite C; cbn [calls start app];
      (split; [eauto | intros [X|X]; [discriminate | auto]]).
  - rewrite dispatch_generate, D.
    destruct (AudioLDM.load_model env _ _ _ start) as [[m|e|c] s1];
      cbn [snd] in C |- *.
    + match goal with
      | |- context [AudioLDM.generate_audio env m ?a ?b ?c ?d ?e ?f ?g ?h s1] =>
          destruct (generate_audio_calls env m a b c d e f g h s1)
            as (l2 & C2 & G)
      end.
      rewrite C2, C. cbn [calls start app]. split; [eauto|].
      intros [X|X]; [discriminate|].
      apply in_app_or in X. destruct X as [X|X]; [auto|].
      revert X. apply forallb_not_in with (f := generation_event); auto.
    + rewrite C; cbn [calls start app].
      split; [eauto | intros [X|X]; [discriminate | auto]].
    + rewrite C; cbn [calls start app].
      split; [eauto | intros [X|X]; [discriminate | auto]].
Qed.

(** X9. A [generate] run on a params object exits with status 0 or 1, and
    with 1 only when [load_model] failed; then the printed object is the
    loader's [{error}] and nothing but the loader was called: no directory
    was created, no audio generated, no file written. *)
Theorem load_failure_stops_generation (rid p : string) (d : pydict F) :
  AudioLDM.json_loads env p = inr (VDict d) ->
  let o := run (RunAudioLDM env (Rational.audioldm_argv "generate" rid p)) in
  (exit_code o = 0 \/ exit_code o = 1) /\
  (exit_code o = 1 ->
   (exists msg, printed o = [[("error", VStr msg)]]) /\
   forallb loader_event (called o) = true).
Proof.
  intros E o. subst o.
  assert (I : In "generate" AudioLDM.choices) by (simpl; auto).
  rewrite (audioldm_run_eq env "generate" rid p (VDict d) I E).
  rewrite dispatch_generate.
  match goal with
  | |- context [AudioLDM.load_model env ?a ?b ?c start] =>
      destruct (load_model_cases env a b c start)
        as [(m & s1 & L & O)|(msg & s1 & L & O)];
      pose proof (load_model_calls env a b c start) as (l & C & B);
      rewrite L in C |- *; cbn [snd] in C
  end.
  - match goal with
    | |- context [AudioLDM.generate_audio env m ?a ?b ?c ?d ?e ?f ?g ?h s1] =>
        destruct (generate_audio_returns env m a b c d e f g h s1)
          as (r & s2 & G & O2 & P)
    end.
    rewrite G. cbn [exit_code]. split; auto. discriminate.
  - cbn [exit_code printed called]. split; auto. intros _.
    rewrite O, C. cbn [stdout calls start app]. eauto.
Qed.

(** X10. A [load-model] run on a params object loads and discards: only the
    loader is called, and a run that exits with status 0 prints the fixed
    status message with the request id. *)
Theorem load_model_run_only_loads (rid p : string) (d : pydict F) :
  AudioLDM.json_loads env p = inr (VDict d) ->
  let o := run (RunAudioLDM env (Rational.audioldm_argv "load-model" rid p)) in
  forallb loader_event (called o) = true /\
  (exit_code o = 0 \/ exit_code o = 1) /\
  (exit_code o = 0 ->
   printed o
   = [[("status", VStr "Model loaded successfully");
       ("request_id", VStr rid)]]).
Proof.
  intros E o. subst o.
  assert (I : In "load-model" AudioLDM.choices) by (simpl; auto).
  rewrite (audioldm_run_eq env "load-model" rid p (VDict d) I E).
  rewrite dispatch_load_model.
  match goal with
  | |- context [AudioLDM.load_model env ?a ?b ?c start] =>
      destruct (load_model_cases env a b c start)
        as [(m & s1 & L & O)|(msg & s1 & L & O)];
      pose proof (load_model_calls env a b c start) as (l & C & B);
      rewrite L in C |- *; cbn [snd] in C
  end.
  - cbn [exit_code printed called]. rewrite O, C. cbn [stdout calls start app].
    repeat split; auto.
  - cbn [exit_code printed called]. rewrite C. cbn [calls start app].
    repeat split; auto. discriminate.
Qed.

End LoadingRuns.

Section SecondAdapterRuns.
Context {F : Type} `{FloatOps F}.
Variable env : Wav2Vec2.Env (F := F).

(** X11. A pooled feature vector of at most 20 values is returned whole:
    [features] holds all of it and [feature_count] is its length. *)
Theorem analyze_returns_short_vector_whole
  (audio_path : string) (model : Wav2Vec2.model) (processor : unit)
  (s s1 : pstate F) (inputs : Wav2Vec2.inputs) (feature_list : list F)
  (others : list (list F)) :
  Wav2Vec2.prepare_inputs env audio_path s = (Ret inputs, s1) ->
  Wav2Vec2.forward env model inputs true = inr tt ->
  Wav2Vec2.pooled_hidden_state env model inputs
  = inr (feature_list :: others) ->
  (List.length feature_list <= 20)%nat ->
  exists s',
    Wav2Vec2.analyze_audio env audio_path model processor s
    = (Ret [("features", VList (map VFloat feature_list));
            ("feature_count", VInt (Z.of_nat (List.length feature_list)))],
       s').
Proof.
  intros P Fw Ph L.
  unfold Wav2Vec2.analyze_audio. unfold bind at 1. rewrite P.
  unfold_py. rewrite Fw, Ph. cbn -[Z.of_nat firstn]. unfold slice_to.
  rewrite firstn_all2 by exact L. eexists. reflexivity.
Qed.

(** A run of the second adapter whose command line is accepted, in terms of
    its [try] block. *)
Lemma wav2vec2_run_eq (op a rid : string) :
  In op Wav2Vec2.choices ->
  run (RunWav2Vec2 env (Wav2Vec2.command_line op a rid)) =
  match
    Wav2Vec2.dispatch env
      {| Wav2Vec2.operation := op; Wav2Vec2.audio := a;
         Wav2Vec2.request_id := rid |} start
  with
  | (Ret d, s') =>
      {| printed := stdout s' ++ [setitem "request_id" (VStr rid) d];
         exit_code := 0; called := calls s' |}
  | (Raise e, s') =>
      {| printed := stdout s' ++ [[("error", VStr e); ("request_id", VStr rid)]];
         exit_code := 1; called := calls s' |}
  | (SysExit c, s') =>
      {| printed := stdout s'; exit_code := c; called := calls s' |}
  end.
Proof.
  intros I. unfold run, run_process.
  rewrite w2v_main_unfold, (w2v_parse_command_line op a rid start I).
  cbn [Wav2Vec2.request_id].
  destruct (Wav2Vec2.dispatch _ _ start) as [[d|e|c] s']; reflexivity.
Qed.

(** X12. The second adapter loads before it reads.  Every accepted run
    starts by loading the processor of the one model the script names, and
    [sf.read] is called only after processor and model have both loaded (and
    the model has moved to the accelerator, when there is one), on the path
    given as [--audio]. *)
Theorem audio_is_read_after_loading (op a rid : string) :
  In op Wav2Vec2.choices ->
  let o :=
    run (RunWav2Vec2 env (Wav2Vec2.command_line op a rid)) in
  (exists rest,
     called o
     = EvProcessorFromPretrained "facebook/wav2vec2-base-960h" :: rest) /\
  (forall path, In (EvSfRead path) (called o) ->
     path = VStr a /\
     Wav2Vec2.processor_from_pretrained env "facebook/wav2vec2-base-960h"
     = inr tt /\
     Wav2Vec2.model_from_pretrained env "facebook/wav2vec2-base-960h"
     = inr tt /\
     (Wav2Vec2.cuda_is_available env = true ->
      Wav2Vec2.model_to_cuda env = inr tt)).
Proof.
  intros I o. subst o. rewrite (wav2vec2_run_eq op a rid I).
  unfold Wav2Vec2.dispatch, Wav2Vec2.load_model, Wav2Vec2.process_audio,
    Wav2Vec2.analyze_audio, Wav2Vec2.prepare_inputs.
  cbn [Wav2Vec2.operation Wav2Vec2.audio Wav2Vec2.request_id].
  py_cases.
  all: cbn [called calls start app].
  all: repeat match goal with u : unit |- _ => destruct u end.
  all: split; [eexists; reflexivity|].
  all: intros path X; cbn [In] in X.
  all: repeat match goal with
         | X : _ \/ _ |- _ => destruct X as [X|X]
         end;
       try discriminate X; try contradiction.
  all: inversion X; subst; repeat split; auto; intros; congruence.
Qed.

(** X13. In the second adapter the exit status and the [error] key agree:
    every accepted run prints one object, and exits with status 0 exactly
    when that object has no [error] key, with status 1 exactly when it has
    one. *)
Theorem second_adapter_status_matches_error_key (op a rid : string) :
  In op Wav2Vec2.choices ->
  let o :=
    run (RunWav2Vec2 env (Wav2Vec2.command_line op a rid)) in
  exists d,
    printed o = [d] /\
    (exit_code o = 0 <-> has_key "error" d = false) /\
    (exit_code o = 1 <-> has_key "error" d = true).
Proof.
  intros I o. subst o. rewrite (wav2vec2_run_eq op a rid I).
  pose proof (w2v_dispatch_cases env
                {| Wav2Vec2.operation := op; Wav2Vec2.audio := a;
                   Wav2Vec2.request_id := rid |} start) as D.
  destruct (Wav2Vec2.dispatch _ _ start) as [[d|e|c] s']; simpl in D.
  - destruct D as (O & S). rewrite O. cbn [printed exit_code stdout start app].
    eexists. split; [reflexivity|].
    rewrite (success_dict_tagged d (VStr rid) S).
    repeat split; auto; discriminate.
  - rewrite D. cbn [printed exit_code stdout start app].
    eexists. split; [reflexivity|].
    cbn. repeat split; auto; discriminate.
  - destruct D.
Qed.

(** X18. The forward pass runs only on audio that was read and
    preprocessed: when the model is called, [sf.read] and the processor
    have succeeded on the [--audio] file, and hidden states are requested
    exactly for [analyze]. *)
Theorem forward_runs_only_on_processed_audio (op a rid : string) (h : bool) :
  In op Wav2Vec2.choices ->
  In (EvForward h)
     (called (run (RunWav2Vec2 env (Wav2Vec2.command_line op a rid)))) ->
  h = String.eqb op "analyze" /\
  exists audio rate,
    Wav2Vec2.sf_read env a = inr (audio, rate) /\
    Wav2Vec2.processor_call env audio rate = inr tt.
Proof.
  intros I. rewrite (wav2vec2_run_eq op a rid I).
  simpl in I. destruct I as [<-|[<-|[]]].
  all: unfold Wav2Vec2.dispatch, Wav2Vec2.load_model, Wav2Vec2.process_audio,
         Wav2Vec2.analyze_audio, Wav2Vec2.prepare_inputs;
       cbn [Wav2Vec2.operation Wav2Vec2.audio Wav2Vec2.request_id
            String.eqb Ascii.eqb Bool.eqb].
  all: py_cases.
  all: cbn [called calls start app In].
  all: repeat match goal with u : unit |- _ => destruct u end.
  all: intros X;
       repeat match goal with
         | X : _ \/ _ |- _ => destruct X as [X|X]
         end;
       try discriminate X; try contradiction.
  all: inversion X; subst; split; [reflexivity | eauto].
Qed.

End SecondAdapterRuns.

Section Envelopes.
Context {F : Type} `{FloatOps F}.

Lemma lookup_app_other (k k' : string) (v : pyval F) (d : pydict F) :
  k <> k' -> lookup k (d ++ [(k', v)])%list = lookup k d.
Proof.
  intros N. induction d as [|[k0 v0] d IH]; simpl.
  - destruct (String.eqb_spec k' k); congruence.
  - now rewrite IH.
Qed.

Lemma payload_untagged (d : pydict F) :
  error_dict d \/ success_dict d -> has_key "request_id" d = false.
Proof. intros [(msg & ->)|(_ & R)]; auto. Qed.

(** X14. [main] tags the result and leaves it otherwise alone: when the
    [try] block yields a result, the printed object is that result with
    [request_id] appended as its last field, so every field of the handler
    is printed with the value the handler gave it. *)
Theorem result_fields_are_printed_unchanged
  (i : invocation (F := F)) (result : pydict F) :
  attempt i = Some (Ret result) ->
  exists rid,
    request_id_of i = Some rid /\
    printed (run i) = [(result ++ [("request_id", VStr rid)])%list] /\
    forall k, k <> "request_id" ->
      lookup k (result ++ [("request_id", VStr rid)])%list = lookup k result.
Proof.
  intros A. pose proof (run_cases i) as R. rewrite A in R.
  destruct R as (rid & Hr & P & _ & S). exists rid.
  rewrite P, (setitem_fresh "request_id" (VStr rid) result (payload_untagged result S)).
  repeat split; auto. intros k N. now apply lookup_app_other.
Qed.

Lemma test_environment_keys (env : AudioLDM.Env (F := F)) (s s' : pstate F)
  (d : pydict F) :
  AudioLDM.test_environment env s = (Ret d, s') ->
  error_dict d \/
  keys d = ["status"; "python_version"; "pytorch_version"; "cuda_available";
            "gpu_info"].
Proof.
  unfold AudioLDM.test_environment. py_cases.
  all: intros E; inversion E; subst; clear E.
  all: solve [left; eexists; reflexivity | right; reflexivity].
Qed.

Lemma generate_audio_keys (env : AudioLDM.Env (F := F)) (m : AudioLDM.model)
  (a b c e f g h k : pyval F) (s s' : pstate F) (d : pydict F) :
  AudioLDM.generate_audio env m a b c e f g h k s = (Ret d, s') ->
  error_dict d \/ keys d = ["path"; "sample_rate"; "duration"].
Proof.
  unfold AudioLDM.generate_audio. py_cases.
  all: intros E; inversion E; subst; clear E.
  all: solve [left; eexists; reflexivity | right; reflexivity].
Qed.

Lemma read_audio_file_keys (env : AudioLDM.Env (F := F)) (p : pyval F)
  (s s' : pstate F) (d : pydict F) :
  AudioLDM.read_audio_file env p s = (Ret d, s') ->
  error_dict d \/ keys d = ["audio_data"; "sample_rate"; "duration"].
Proof.
  unfold AudioLDM.read_audio_file. py_cases.
  all: intros E; inversion E; subst; clear E.
  all: solve [left; eexists; reflexivity | right; reflexivity].
Qed.

Lemma dispatch_keys (env : AudioLDM.Env (F := F)) (op rid p : string)
  (params : pyval F) (s s' : pstate F) (d : pydict F) :
  In op AudioLDM.choices ->
  AudioLDM.dispatch env
    {| AudioLDM.operation := op; AudioLDM.request_id := rid;
       AudioLDM.params := p |} params s = (Ret d, s') ->
  error_dict d \/ (keys d ++ ["request_id"])%list = success_keys op.
Proof.
  intros I. simpl in I. destruct I as [<-|[<-|[<-|[<-|[]]]]].
  - unfold AudioLDM.dispatch.
    cbn [AudioLDM.operation String.eqb Ascii.eqb Bool.eqb].
    intros E. apply test_environment_keys in E.
    destruct E as [E|E]; [now left | right; now rewrite E].
  - destruct params; try (cbn; discriminate).
    rewrite dispatch_load_model.
    destruct (AudioLDM.load_model env _ _ _ s) as [[m|e|c] s1];
      intros E; inversion E; subst. right. reflexivity.
  - destruct params; try (cbn; discriminate).
    rewrite dispatch_generate.
    destruct (AudioLDM.load_model env _ _ _ s) as [[m|e|c] s1];
      try discriminate.
    intros E. apply generate_audio_keys in E.
    destruct E as [E|E]; [now left | right; now rewrite E].
  - destruct params; try (cbn; discriminate).
    unfold AudioLDM.dispatch.
    cbn [AudioLDM.operation String.eqb Ascii.eqb Bool.eqb].
    rewrite get_dict_or. unfold bind, ret. cbn beta iota.
    intros E. apply read_audio_file_keys in E.
    destruct E as [E|E]; [now left | right; now rewrite E].
Qed.

Lemma w2v_dispatch_keys (env : Wav2Vec2.Env (F := F)) (op a rid : string)
  (s s' : pstate F) (d : pydict F) :
  In op Wav2Vec2.choices ->
  Wav2Vec2.dispatch env
    {| Wav2Vec2.operation := op; Wav2Vec2.audio := a;
       Wav2Vec2.request_id := rid |} s = (Ret d, s') ->
  (keys d ++ ["request_id"])%list = success_keys op.
Proof.
  intros I. simpl in I. destruct I as [<-|[<-|[]]].
  all: unfold Wav2Vec2.dispatch, Wav2Vec2.load_model, Wav2Vec2.process_audio,
         Wav2Vec2.analyze_audio, Wav2Vec2.prepare_inputs;
       cbn [Wav2Vec2.operation String.eqb Ascii.eqb Bool.eqb].
  all: py_cases.
  all: intros E; inversion E; subst; reflexivity.
Qed.

Lemma attempt_keys (i : invocation (F := F)) (op : string) (d : pydict F) :
  attempt i = Some (Ret d) ->
  operation_of i = Some op ->
  error_dict d \/ (keys d ++ ["request_id"])%list = success_keys op.
Proof.
  destruct i as [env argv|env argv]; unfold attempt.
  - destruct (parse_args_cases argv (start (F := F)))
      as [(op' & rid & p & Eo & Er & Ep & Hop & E) | [E | (E & _)]];
      rewrite E; try discriminate.
    cbn [AudioLDM.params operation_of].
    destruct (AudioLDM.json_loads env p) as [e|params]; [discriminate|].
    rewrite Eo. intros A [= <-].
    destruct (AudioLDM.dispatch env _ params start) as [r s'] eqn:D.
    cbn [fst] in A. injection A as ->.
    eapply dispatch_keys; eauto. now apply existsb_eqb_In.
  - destruct (w2v_parse_args_cases argv (start (F := F)))
      as [(op' & a & rid & Eo & Ea & Er & Hop & E) | [E | (E & _)]];
      rewrite E; try discriminate.
    cbn [operation_of]. rewrite Eo.
    intros A [= <-].
    destruct (Wav2Vec2.dispatch env _ start) as [r s'] eqn:D.
    cbn [fst] in A. injection A as ->. right.
    eapply w2v_dispatch_keys; eauto. now apply existsb_eqb_In.
Qed.

(** X15. The fields of a success object are fixed by the operation: a
    printed object without [error] key has exactly the keys of its
    operation, in the order of the source, with [request_id] last. *)
Theorem success_fields_by_operation
  (i : invocation (F := F)) (op : string) (d : pydict F) :
  operation_of i = Some op ->
  In d (printed (run i)) ->
  has_key "error" d = false ->
  keys d = success_keys op.
Proof.
  intros Hop I K. pose proof (run_cases i) as R.
  destruct (attempt i) as [[d0|e|c]|] eqn:A.
  - destruct R as (rid & _ & P & _ & S). rewrite P in I.
    destruct I as [<-|[]].
    destruct (attempt_keys i op d0 A Hop) as [Er|Ks].
    + destruct (error_dict_tagged d0 rid Er) as (msg & T).
      rewrite T in K. discriminate.
    + rewrite (setitem_fresh "request_id" (VStr rid) d0 (payload_untagged d0 S)).
      unfold keys in *. now rewrite map_app.
  - destruct R as (rid & _ & P & _). rewrite P in I.
    destruct I as [<-|[]]. discriminate.
  - destruct R as (rid & _ & (msg & P) & _). rewrite P in I.
    destruct I as [<-|[]]. discriminate.
  - destruct R as (P & _). rewrite P in I. destruct I.
Qed.

End Envelopes.

Section ExitStatus.
Context {F : Type} `{FloatOps F}.






(** X17. [test-env] and [read-audio] never touch the model: whatever the
    libraries answer, such a run makes no loader call. *)
Theorem probe_and_read_never_load (env : AudioLDM.Env (F := F))
  (op rid p : string) (params : pyval F) :
  op = "test-env" \/ op = "read-audio" ->
  AudioLDM.json_loads env p = inr params ->
  forall e,
    In e (called (run (RunAudioLDM env (Rational.audioldm_argv op rid p)))) ->
    loader_event e = false.
Proof.
  intros Op E.
  assert (I : In op AudioLDM.choices) by (destruct Op; subst; simpl; auto).
  rewrite (audioldm_called_eq env op rid p params I E).
  destruct Op as [-> | ->]; unfold AudioLDM.dispatch;
    cbn [AudioLDM.operation String.eqb Ascii.eqb Bool.eqb].
  - unfold AudioLDM.test_environment. py_cases.
    all: cbn [calls start app In]; intros e0 X; intuition (subst; reflexivity).
  - destruct params; try (cbn; intros e0 []).
    rewrite get_dict_or. unfold bind at 1, ret.
    unfold AudioLDM.read_audio_file. py_cases.
    all: cbn [calls start app In]; intros e0 X; intuition (subst; reflexivity).
Qed.

End ExitStatus.

(** ** The further properties at concrete runs *)

Section FurtherConcreteRuns.
Import Rational.

Lemma non_object_params_witness :
  let o :=
    run (RunAudioLDM
           (audioldm_env (inr (VList [])) true (inr tt) one_waveform
              no_such_file)
           (audioldm_argv "read-audio" "r1" "[]")) in
  printed o
  = [[("error", VStr "'list' object has no attribute 'get'");
      ("request_id", VStr "r1")]] /\
  exit_code o = 1 /\ called o = [].
Proof.
  refine (non_object_params
            (audioldm_env (inr (VList [])) true (inr tt) one_waveform
               no_such_file)
            "read-audio" "r1" "[]" (VList []) _ eq_refl _).
  - simpl. auto.
  - intros d. discriminate.
Defined.

Lemma loaded_model_is_as_requested_witness :
  let env :=
    audioldm_env (inr (VDict [])) false (inr tt) one_waveform no_such_file in
  exists m s',
    AudioLDM.load_model env (VStr "cvssp/audioldm") (VStr "4bit") (VBool true)
      start = (Ret m, s') /\
    In (EvAudioLDM (VStr "cvssp/audioldm") "cpu" (Some LoadIn4bit))
       (made start s') /\
    AudioLDM.device m = "cpu" /\
    AudioLDM.quantization_config m = Some LoadIn4bit.
Proof.
  cbv zeta. do 2 eexists.
  assert (E : AudioLDM.load_model
                (audioldm_env (inr (VDict [])) false (inr tt) one_waveform
                   no_such_file)
                (VStr "cvssp/audioldm") (VStr "4bit") (VBool true) start
              = (Ret {| AudioLDM.model_path := VStr "cvssp/audioldm";
                        AudioLDM.device := "cpu";
                        AudioLDM.quantization_config := Some LoadIn4bit;
                        AudioLDM.half_precision := false |},
                 {| stdout := [];
                    calls := [EvBitsAndBytesConfig LoadIn4bit;
                              EvAudioLDM (VStr "cvssp/audioldm") "cpu"
                                (Some LoadIn4bit);
                              EvGradientCheckpointing] |}))
    by reflexivity.
  split; [exact E|].
  destruct (loaded_model_is_as_requested _ _ _ _ _ _ _ E)
    as (I & _ & _ & D & Q0 & _).
  split; [exact I | split; [exact D | exact Q0]].
Defined.

Lemma unknown_quantization_witness :
  let env :=
    audioldm_env (inr (VDict [])) true (inr tt) one_waveform no_such_file in
  let r :=
    AudioLDM.load_model env (VStr "cvssp/audioldm") (VStr "16bit")
      (VBool true) start in
  fst r
  = Ret {| AudioLDM.model_path := VStr "cvssp/audioldm";
           AudioLDM.device := "cuda";
           AudioLDM.quantization_config := None;
           AudioLDM.half_precision := false |} /\
  exists rest,
    made start (snd r) = EvAudioLDM (VStr "cvssp/audioldm") "cuda" None :: rest /\
    (rest = [] \/ rest = [EvGradientCheckpointing]).
Proof.
  cbv zeta.
  assert (N8 : VStr "16bit" <> VStr (F := Q) "8bit") by discriminate.
  assert (N4 : VStr "16bit" <> VStr (F := Q) "4bit") by discriminate.
  assert (Nn : VStr "16bit" <> VStr (F := Q) "none") by discriminate.
  destruct (unknown_quantization_loads_full_precision
              (audioldm_env (inr (VDict [])) true (inr tt) one_waveform
                 no_such_file)
              (VStr "cvssp/audioldm") (VStr "16bit") (VBool true) start
              N8 N4 Nn) as (M & R & _ & _).
  split; [exact (R eq_refl (fun _ => eq_refl)) | exact M].
Defined.

Lemma reported_file_witness :
  let env :=
    audioldm_env (inr (VDict [])) true (inr tt) one_waveform no_such_file in
  exists path waveform others,
    path = "./output/audio.wav" /\
    AudioLDM.generate env Fixtures.loaded (VStr "rain") (VFloat (7 # 2)) (VInt 25)
      (VFloat 5%Q) (VInt 1) = inr (waveform :: others) /\
    In (EvSfWrite path waveform (VInt 16000))
       (made start
          {| stdout := [];
             calls := [EvMakedirs (VStr "./output");
                       EvGenerate (VStr "rain") (VFloat (7 # 2)) (VInt 25)
                         (VFloat 5%Q) (VInt 1);
                       EvSfWrite "./output/audio.wav" (Arr1 [0; 0]%Q)
                         (VInt 16000)] |}).
Proof.
  cbv zeta.
  destruct (reported_file_is_the_written_file
              (audioldm_env (inr (VDict [])) true (inr tt) one_waveform
                 no_such_file)
              Fixtures.loaded (VStr "rain") (VStr "./output") (VStr "audio") (VInt 25)
              (VFloat (7 # 2)) (VInt 1) (VFloat 5%Q) (VInt 16000) start
              {| stdout := [];
                 calls := [EvMakedirs (VStr "./output");
                           EvGenerate (VStr "rain") (VFloat (7 # 2)) (VInt 25)
                             (VFloat 5%Q) (VInt 1);
                           EvSfWrite "./output/audio.wav" (Arr1 [0; 0]%Q)
                             (VInt 16000)] |}
              [("path", VStr "./output/audio.wav");
               ("sample_rate", VInt 16000); ("duration", VFloat 5%Q)]
              eq_refl eq_refl)
    as (path & w & others & D & J & G & _ & I).
  exists path, w, others. repeat split; auto.
  injection D as <-. reflexivity.
Defined.

Lemma failed_generation_witness :
  let env :=
    audioldm_env (inr (VDict [])) true (inr tt) (inl "CUDA out of memory")
      no_such_file in
  let r :=
    AudioLDM.generate_audio env Fixtures.loaded (VStr "rain") (VStr "./output")
      (VStr "audio") (VInt 25) (VFloat (7 # 2)) (VInt 1) (VFloat 5%Q)
      (VInt 16000) start in
  (exists msg, fst r = Ret [("error", VStr msg)]) /\
  (forall path data rate,
     ~ In (EvSfWrite path data rate) (made start (snd r))) /\
  (exists rest, made start (snd r) = EvMakedirs (VStr "./output") :: rest).
Proof.
  exact (failed_generation_writes_no_file
           (audioldm_env (inr (VDict [])) true (inr tt)
              (inl "CUDA out of memory") no_such_file)
           Fixtures.loaded (VStr "rain") (VStr "./output") (VStr "audio") (VInt 25)
           (VFloat (7 # 2)) (VInt 1) (VFloat 5%Q) (VInt 16000) start
           "CUDA out of memory" eq_refl).
Defined.

Lemma read_audio_keeps_mono_witness :
  AudioLDM.read_audio_file
    (audioldm_env (inr (VDict [])) true (inr tt) one_waveform
       (inr (Arr1 [1; 3; 2; 4]%Q, 2)))
    (VStr "clip.wav") start
  = (Ret [("audio_data", VNpyB64 (Arr1 [1; 3; 2; 4]%Q));
          ("sample_rate", VInt 2);
          ("duration", VFloat 2%Q)],
     {| stdout := []; calls := [EvSfRead (VStr "clip.wav")] |}).
Proof.
  exact (read_audio_keeps_mono
           (audioldm_env (inr (VDict [])) true (inr tt) one_waveform
              (inr (Arr1 [1; 3; 2; 4]%Q, 2)))
           (VStr "clip.wav") [1; 3; 2; 4]%Q 2 start eq_refl eq_refl).
Defined.

Lemma test_env_without_cuda_witness :
  run (RunAudioLDM
         (audioldm_env (inr (VDict [])) false (inr tt) one_waveform
            no_such_file)
         (audioldm_argv "test-env" "r1" "{}"))
  = {| printed :=
         [[("status", VStr "ok");
           ("python_version", VStr "3.10.12");
           ("pytorch_version", VStr "2.1.0");
           ("cuda_available", VBool false);
           ("gpu_info", VDict []);
           ("request_id", VStr "r1")]];
       exit_code := 0;
       called := [] |}.
Proof.
  exact (test_env_without_cuda
           (audioldm_env (inr (VDict [])) false (inr tt) one_waveform
              no_such_file)
           "r1" "{}" (VDict []) eq_refl eq_refl).
Defined.

Lemma default_quantization_witness :
  let o :=
    run (RunAudioLDM
           (audioldm_env (inr (VDict [])) true (inr tt) one_waveform
              no_such_file)
           (audioldm_argv "generate" "r1" "{}")) in
  (exists rest, called o = EvBitsAndBytesConfig LoadIn8bit :: rest) /\
  ~ In EvHalf (called o).
Proof.
  exact (default_quantization_excludes_half_precision
           (audioldm_env (inr (VDict [])) true (inr tt) one_waveform
              no_such_file)
           "generate" "r1" "{}" [] (or_intror eq_refl) eq_refl eq_refl).
Defined.

Lemma load_failure_stops_generation_witness :
  let o :=
    run (RunAudioLDM
           (audioldm_env (inr (VDict [])) true (inl "model not found")
              one_waveform no_such_file)
           (audioldm_argv "generate" "r1" "{}")) in
  exit_code o = 1 /\
  (exists msg, printed o = [[("error", VStr msg)]]) /\
  forallb loader_event (called o) = true.
Proof.
  cbv zeta. split; [reflexivity|].
  exact (proj2
           (load_failure_stops_generation
              (audioldm_env (inr (VDict [])) true (inl "model not found")
                 one_waveform no_such_file)
              "r1" "{}" [] eq_refl) eq_refl).
Defined.

Lemma load_model_run_witness :
  let o :=
    run (RunAudioLDM
           (audioldm_env (inr (VDict [])) true (inr tt) one_waveform
              no_such_file)
           (audioldm_argv "load-model" "r1" "{}")) in
  exit_code o = 0 /\
  forallb loader_event (called o) = true /\
  printed o
  = [[("status", VStr "Model loaded successfully");
      ("request_id", VStr "r1")]].
Proof.
  cbv zeta. split; [reflexivity|].
  destruct (load_model_run_only_loads
              (audioldm_env (inr (VDict [])) true (inr tt) one_waveform
                 no_such_file)
              "r1" "{}" [] eq_refl) as (L & _ & P).
  split; [exact L | exact (P eq_refl)].
Defined.

Lemma analyze_short_vector_witness :
  exists s',
    Wav2Vec2.analyze_audio
      (wav2vec2_env (inr (Arr1 [1; 3]%Q, 16000)) [Fixtures.pooled3])
      "clip.wav"
      {| Wav2Vec2.model_name := "facebook/wav2vec2-base-960h";
         Wav2Vec2.on_cuda := false |} tt start
    = (Ret [("features", VList [VFloat 1%Q; VFloat 2%Q; VFloat 3%Q]);
            ("feature_count", VInt 3)], s').
Proof.
  refine (analyze_returns_short_vector_whole
            (wav2vec2_env (inr (Arr1 [1; 3]%Q, 16000)) [Fixtures.pooled3])
            "clip.wav"
            {| Wav2Vec2.model_name := "facebook/wav2vec2-base-960h";
               Wav2Vec2.on_cuda := false |} tt start
            {| stdout := [];
               calls := [EvSfRead (VStr "clip.wav");
                         EvProcessor (Arr1 [1; 3]%Q) 16000] |}
            {| Wav2Vec2.input_audio := Arr1 [1; 3]%Q;
               Wav2Vec2.input_rate := 16000;
               Wav2Vec2.inputs_on_cuda := false |}
            Fixtures.pooled3 [] eq_refl eq_refl eq_refl _).
  vm_compute. lia.
Defined.

Lemma audio_is_read_after_loading_witness :
  let o :=
    run (RunWav2Vec2 (wav2vec2_env no_such_file [pooled24])
           (wav2vec2_argv "process" "r2")) in
  In (EvSfRead (VStr "clip.wav")) (called o) /\
  (exists rest,
     called o
     = EvProcessorFromPretrained "facebook/wav2vec2-base-960h" :: rest) /\
  Wav2Vec2.model_from_pretrained (wav2vec2_env no_such_file [pooled24])
    "facebook/wav2vec2-base-960h" = inr tt.
Proof.
  cbv zeta.
  assert (I : In (EvSfRead (VStr "clip.wav"))
                (called (run (RunWav2Vec2
                                (wav2vec2_env no_such_file [pooled24])
                                (wav2vec2_argv "process" "r2"))))).
  { vm_compute. tauto. }
  split; [exact I|].
  destruct (audio_is_read_after_loading
              (wav2vec2_env no_such_file [pooled24]) "process" "clip.wav" "r2"
              (or_introl eq_refl)) as (R & A).
  split; [exact R|].
  destruct (A (VStr "clip.wav") I) as (_ & _ & M & _). exact M.
Defined.

Lemma second_adapter_status_witness :
  let o :=
    run (RunWav2Vec2 (wav2vec2_env no_such_file [pooled24])
           (wav2vec2_argv "analyze" "r2")) in
  exists d,
    printed o = [d] /\
    (exit_code o = 0 <-> has_key "error" d = false) /\
    (exit_code o = 1 <-> has_key "error" d = true).
Proof.
  exact (second_adapter_status_matches_error_key
           (wav2vec2_env no_such_file [pooled24]) "analyze" "clip.wav" "r2"
           (or_intror (or_introl eq_refl))).
Defined.

Lemma result_fields_witness :
  let i :=
    RunWav2Vec2 (wav2vec2_env (inr (stereo, 16000)) [pooled24])
      (wav2vec2_argv "process" "r2") in
  exists rid,
    request_id_of i = Some rid /\
    printed (run i)
    = [[("transcription", VStr "HELLO"); ("confidence", VFloat 12%Q);
        ("request_id", VStr rid)]].
Proof.
  cbv zeta.
  destruct (result_fields_are_printed_unchanged
              (RunWav2Vec2 (wav2vec2_env (inr (stereo, 16000)) [pooled24])
                 (wav2vec2_argv "process" "r2"))
              [("transcription", VStr "HELLO"); ("confidence", VFloat 12%Q)]
              eq_refl) as (rid & R & P & _).
  exists rid. split; [exact R | exact P].
Defined.

Lemma success_fields_witness :
  keys [("audio_data", VNpyB64 (Arr1 [2; 3]%Q));
        ("sample_rate", VInt 2); ("duration", VFloat 1%Q);
        ("request_id", VStr "r1")]
  = ["audio_data"; "sample_rate"; "duration"; "request_id"].
Proof.
  refine (success_fields_by_operation
            (RunAudioLDM
               (audioldm_env (inr (VDict [])) true (inr tt) one_waveform
                  (inr (stereo, 2)))
               (audioldm_argv "read-audio" "r1" "{}"))
            "read-audio"
            [("audio_data", VNpyB64 (Arr1 [2; 3]%Q));
             ("sample_rate", VInt 2); ("duration", VFloat 1%Q);
             ("request_id", VStr "r1")]
            eq_refl _ eq_refl).
  vm_compute. auto.
Defined.


Lemma probe_and_read_never_load_witness :
  let o :=
    run (RunAudioLDM
           (audioldm_env (inr (VDict [])) true (inr tt) one_waveform
              (inr (stereo, 2)))
           (audioldm_argv "read-audio" "r1" "{}")) in
  In (EvSfRead (VStr "")) (called o) /\
  loader_event (EvSfRead (VStr "") : event Q) = false.
Proof.
  cbv zeta.
  assert (I : In (EvSfRead (VStr ""))
                (called (run (RunAudioLDM
                                (audioldm_env (inr (VDict [])) true (inr tt)
                                   one_waveform (inr (stereo, 2)))
                                (audioldm_argv "read-audio" "r1" "{}"))))).
  { vm_compute. tauto. }
  split; [exact I|].
  exact (probe_and_read_never_load
           (audioldm_env (inr (VDict [])) true (inr tt) one_waveform
              (inr (stereo, 2)))
           "read-audio" "r1" "{}" (VDict []) (or_intror eq_refl) eq_refl
           (EvSfRead (VStr "")) I).
Defined.

Lemma forward_witness :
  true = String.eqb "analyze" "analyze" /\
  exists audio rate,
    Wav2Vec2.sf_read (wav2vec2_env (inr (stereo, 16000)) [pooled24])
      "clip.wav" = inr (audio, rate) /\
    Wav2Vec2.processor_call (wav2vec2_env (inr (stereo, 16000)) [pooled24])
      audio rate = inr tt.
Proof.
  refine (forward_runs_only_on_processed_audio
            (wav2vec2_env (inr (stereo, 16000)) [pooled24])
            "analyze" "clip.wav" "r2" true
            (or_intror (or_introl eq_refl)) _).
  vm_compute. tauto.
Defined.

End FurtherConcreteRuns.
